(** * PulseConnect: request, appointment, notification and inventory handlers

    A shallow embedding of the handlers of the PulseConnect front end that
    read and write the shared store, and the properties of the lifecycle core
    checked against them.  Each module follows one source file and keeps the
    names of its functions. *)

From Stdlib Require Import ZArith Lia.
From stdpp Require Import base strings list gmap sorting pretty.

(** ** Blood-group compatibility (src/pages/Dashboard.tsx, the "aiMatches" tab) *)

Module Dashboard.

(** The eight ABO/Rh groups, in the order of the keys of [compat]. *)
Definition bloodGroups : list string :=
  ["O-"; "O+"; "A-"; "A+"; "B-"; "B+"; "AB-"; "AB+"].

(** [const compat: Record<string, string[]>]: for each donor group, the
    patient groups it can give to. *)
Definition compat : gmap string (list string) :=
  list_to_map
    [ ("O-",  ["O-"; "O+"; "A-"; "A+"; "B-"; "B+"; "AB-"; "AB+"]);
      ("O+",  ["O+"; "A+"; "B+"; "AB+"]);
      ("A-",  ["A-"; "A+"; "AB-"; "AB+"]);
      ("A+",  ["A+"; "AB+"]);
      ("B-",  ["B-"; "B+"; "AB-"; "AB+"]);
      ("B+",  ["B+"; "AB+"]);
      ("AB-", ["AB-"; "AB+"]);
      ("AB+", ["AB+"]) ].

(** [(compat[donorType] || []).includes(patientType)].  The lookup is on the
    keys written in the literal; a missing key gives the empty list. *)
Definition compatible (donorType patientType : string) : bool :=
  bool_decide (patientType ∈ default [] (compat !! donorType)).

(** A demo donor; [distanceKm] is kept in tenths of a kilometre. *)
Record DemoDonor := mkDemoDonor {
  dd_id : string;
  dd_name : string;
  blood : string;
  distanceKm : Z
}.

Definition demoDonors : list DemoDonor :=
  [ mkDemoDonor "d1" "Krishna" "O+" 32;
    mkDemoDonor "d2" "Aisha" "A+" 51;
    mkDemoDonor "d3" "Rohit" "B+" 24;
    mkDemoDonor "d4" "Priya" "AB+" 78 ].

(** The filter step of [matched]: the donors of [ds] that may give to a
    request of group [blood_group]. *)
Definition candidates (ds : list DemoDonor) (blood_group : string) : list DemoDonor :=
  filter (λ d, compatible (blood d) blood_group = true) ds.

Definition nearer (a b : DemoDonor) : Prop := (distanceKm a ≤ distanceKm b)%Z.

#[global] Instance nearer_dec a b : Decision (nearer a b).
Proof. unfold nearer. apply _. Defined.

(** [demoDonors.filter(..).sort((a, b) => a.distanceKm - b.distanceKm).slice(0, 2)] *)
Definition matched (blood_group : string) : list DemoDonor :=
  take 2 (merge_sort nearer (candidates demoDonors blood_group)).

End Dashboard.

(** ** The shared store (the Supabase client, as the handlers use it)

    A table is the list of its rows.  Every call the handlers make is a single
    statement on one table, so a run of several handlers is the sequence of
    their statements. *)

Module Supabase.

(** What a store call answers: it is carried out ([Done], the returned
    [error] is null), it is refused ([Refused], the returned [error] holds a
    message and the table is left as it was), or the awaited call rejects
    ([Thrown], control passes to the handler's [catch]). *)
Inductive Reply := Done | Refused (message : string) | Thrown.

(** [.update(f).eq(col, v)]: every row whose column equals [v] is rewritten. *)
Definition update_eq {Row : Type} (col : Row → string) (v : string)
    (f : Row → Row) (table : list Row) : list Row :=
  (λ row, if decide (col row = v) then f row else row) <$> table.

(** [.insert(row)] *)
Definition insert {Row : Type} (row : Row) (table : list Row) : list Row :=
  table ++ [row].

(** A row of [requests], with the columns the handlers read or write and the
    payload columns of the request forms.  Instants are milliseconds since
    the epoch; an ISO timestamp is kept as the instant it denotes. *)
Record Request := mkRequest {
  id : string;
  hospital_id : string;
  type : string;
  blood_group : string;
  units : Z;
  urgency : string;
  patient_name : string;
  location : string;
  notes : option string;
  status : string;
  donor_id : option string;
  created_at : Z;
  updated_at : option Z
}.

(** A row of [appointments] as the handlers insert it; a column that an
    insert does not mention is [None]. *)
Record Appointment := mkAppointment {
  a_request_id : option string;
  a_hospital_id : string;
  a_donor_id : string;
  appointment_date : Z;
  appointment_time : option string;
  donation_type : option string;
  a_status : string;
  hospital_contact : option string;
  a_notes : option string
}.

(** A row of [notifications] as the handlers insert it. *)
Record NewNotification := mkNewNotification {
  nn_user_id : string;
  nn_user_type : option string;
  nn_title : string;
  nn_message : string;
  nn_type : string;
  nn_is_read : option bool;
  nn_data : option (string * string)
}.

(** A row of [profiles]: a donor and the availability flag. *)
Record Profile := mkProfile {
  p_id : string;
  blood_type : string;
  is_available : bool
}.

Record Db := mkDb {
  requests : list Request;
  appointments : list Appointment;
  notifications : list NewNotification;
  profiles : list Profile
}.

Definition with_requests (rs : list Request) (db : Db) : Db :=
  mkDb rs (appointments db) (notifications db) (profiles db).
Definition with_appointments (xs : list Appointment) (db : Db) : Db :=
  mkDb (requests db) xs (notifications db) (profiles db).
Definition with_notifications (ns : list NewNotification) (db : Db) : Db :=
  mkDb (requests db) (appointments db) ns (profiles db).
Definition with_profiles (ps : list Profile) (db : Db) : Db :=
  mkDb (requests db) (appointments db) (notifications db) ps.

(** Two request rows that agree on every column other than [status],
    [donor_id] and [updated_at]. *)
Definition same_payload (r r' : Request) : Prop :=
  id r = id r' ∧ hospital_id r = hospital_id r' ∧ type r = type r' ∧
  blood_group r = blood_group r' ∧ units r = units r' ∧ urgency r = urgency r' ∧
  patient_name r = patient_name r' ∧ location r = location r' ∧
  notes r = notes r' ∧ created_at r = created_at r'.

(** Two request rows that agree on every column other than [status]. *)
Definition same_but_status (r r' : Request) : Prop :=
  same_payload r r' ∧ donor_id r = donor_id r' ∧ updated_at r = updated_at r'.

(** How a stored row [r] relates to the row [r'] that takes its place when the
    status of the request [rid] is set to [s]: a row with that id gets status
    [s] and keeps its other columns, any other row stays as it is. *)
Definition status_set (rid s : string) (r r' : Request) : Prop :=
  if decide (id r = rid) then status r' = s ∧ same_but_status r r' else r' = r.

(** [.update({ status })] on a row *)
Definition set_status (s : string) (r : Request) : Request :=
  mkRequest (id r) (hospital_id r) (type r) (blood_group r) (units r)
    (urgency r) (patient_name r) (location r) (notes r)
    s (donor_id r) (created_at r) (updated_at r).

(** [.update({ donor_id, status, updated_at })] on a row *)
Definition set_resolution (donor : string) (s : string) (now : Z)
    (r : Request) : Request :=
  mkRequest (id r) (hospital_id r) (type r) (blood_group r) (units r)
    (urgency r) (patient_name r) (location r) (notes r)
    s (Some donor) (created_at r) (Some now).

(** [.update({ is_available: false })] on a row *)
Definition set_unavailable (p : Profile) : Profile :=
  mkProfile (p_id p) (blood_type p) false.

End Supabase.

(** A toast shown to the user: title, description, and whether its variant is
    "destructive". *)
Record Toast := mkToast {
  title : string;
  description : string;
  destructive : bool
}.

(** ** The donor's request card (src/components/DonorRequestCard.tsx) *)

Module DonorRequestCard.
Import Supabase.
Local Open Scope Z_scope.

(** What the handler reads from its surroundings: the donor id held in
    [sessionStorage] (absent when nobody is logged in), the clock at
    [new Date()] and at [Date.now()], and the store's answer to each of the
    three calls. *)
Record Env := mkEnv {
  session_donor : option string;
  now_update : Z;
  now_insert : Z;
  reply_update : Reply;
  reply_appointment : Reply;
  reply_notification : Reply
}.

(** What a handler leaves behind: the store, the toast it showed, and
    whether it called [onRequestUpdate]. *)
Record Outcome := mkOutcome {
  db : Db;
  toast : Toast;
  reloaded : bool
}.

Definition authentication_error : Toast :=
  mkToast "Authentication Error" "Please log in again." true.
Definition unexpected_error : Toast :=
  mkToast "Error" "An unexpected error occurred." true.
Definition request_accepted : Toast :=
  mkToast "Request Accepted"
    "You have accepted this request. The hospital will contact you to schedule the donation."
    false.
Definition request_ignored : Toast :=
  mkToast "Request Ignored" "This request has been marked as ignored." false.

(** [donorData.id], with the falsy empty string read as absent. *)
Definition donor_of (env : Env) : option string :=
  match session_donor env with
  | Some d => if decide (d = "") then None else Some d
  | None => None
  end.

(** The row inserted into [appointments] on accept. *)
Definition accept_appointment (env : Env) (request : Request) (donor : string) : Appointment :=
  mkAppointment (Some (id request)) (hospital_id request) donor
    (now_insert env + 24 * 60 * 60 * 1000) (Some "10:00 AM") None
    "scheduled" None None.

(** The row inserted into [notifications] on accept. *)
Definition accept_notification (request : Request) (donor : string) : NewNotification :=
  mkNewNotification (hospital_id request) (Some "hospital") "Request Accepted"
    ("Your " +:+ type request +:+ " request for " +:+ blood_group request
       +:+ " has been accepted by a donor.")
    "request" None (Some (id request, donor)).

(** [handleAccept].  [request] is the card's own copy of the request (its
    prop); [d] is the store before the call. *)
Definition handleAccept (env : Env) (request : Request) (d : Db) : Outcome :=
  match donor_of env with
  | None => mkOutcome d authentication_error false
  | Some donor =>
    match reply_update env with
    | Thrown => mkOutcome d unexpected_error false
    | Refused message => mkOutcome d (mkToast "Accept Failed" message true) false
    | Done =>
      let d1 :=
        with_requests
          (update_eq id (id request)
             (set_resolution donor "accepted" (now_update env)) (requests d)) d in
      match reply_appointment env with
      | Thrown => mkOutcome d1 unexpected_error false
      | (Done | Refused _) as ra =>
        let d2 :=
          match ra with
          | Done => with_appointments
                      (insert (accept_appointment env request donor) (appointments d1)) d1
          | _ => d1
          end in
        match reply_notification env with
        | Thrown => mkOutcome d2 unexpected_error false
        | Done =>
          mkOutcome
            (with_notifications
               (insert (accept_notification request donor) (notifications d2)) d2)
            request_accepted true
        | Refused _ => mkOutcome d2 request_accepted true
        end
      end
    end
  end.

(** [handleIgnore] *)
Definition handleIgnore (env : Env) (request : Request) (d : Db) : Outcome :=
  match donor_of env with
  | None => mkOutcome d authentication_error false
  | Some donor =>
    match reply_update env with
    | Thrown => mkOutcome d unexpected_error false
    | Refused message => mkOutcome d (mkToast "Ignore Failed" message true) false
    | Done =>
      mkOutcome
        (with_requests
           (update_eq id (id request)
              (set_resolution donor "ignored" (now_update env)) (requests d)) d)
        request_ignored true
    end
  end.



(** The attempt of [env] runs to its end: a donor is logged in, the store
    carries out the update, and neither later call rejects. *)
Definition carried_out (env : Env) : bool :=
  match donor_of env, reply_update env, reply_appointment env, reply_notification env with
  | Some _, Done, (Done | Refused _), (Done | Refused _) => true
  | _, _, _, _ => false
  end.

(** A run of accept attempts on one request, one after the other: each
    attempt is a card of [request] in the hands of the logged-in donor of its
    environment. *)
Fixpoint acceptAll (envs : list Env) (request : Request) (d : Db) : Db * list Toast :=
  match envs with
  | [] => (d, [])
  | env :: rest =>
    let o := handleAccept env request d in
    let '(d', ts) := acceptAll rest request (db o) in
    (d', toast o :: ts)
  end.

(** How a stored row [r] relates to the row [r'] that takes its place when the
    request of the card [request] is resolved: a row with the card's id gets
    status [s] and donor [winner] and keeps its other columns, any other row
    stays as it is. *)
Definition resolved_as (request : Request) (s : string) (winner : option string)
    (r r' : Request) : Prop :=
  if decide (id r = id request)
  then status r' = s ∧ donor_id r' = winner ∧ same_payload r r'
  else r' = r.

(** The store carries out the insert of the appointment of [env]'s attempt. *)
Definition appointment_inserted (env : Env) : bool :=
  match reply_appointment env with Done => true | _ => false end.

End DonorRequestCard.

(** ** Scheduling an appointment (src/components/hospital/AppointmentForm.tsx) *)

Module AppointmentForm.
Import Supabase.
Local Open Scope Z_scope.

(** The donor the form is opened for. *)
Record Donor := mkDonor {
  d_id : string;
  first_name : string;
  last_name : string;
  d_blood_type : string;
  phone : string;
  d_location : string
}.

(** [AppointmentData].  The value of the date input is empty or a calendar
    day, kept as its number of days since 1970-01-01; the value of the time
    input is empty or a time of day, kept in minutes after midnight. *)
Record AppointmentData := mkAppointmentData {
  date : option Z;
  time : option Z;
  hospitalContact : string;
  notes : string;
  donationType : string
}.

(** What the handler reads from its surroundings: the logged-in user's id,
    the offset of local time from UTC in milliseconds, the locale's rendering
    of a day and of a time of day, and the store's answer to each call. *)
Record Env := mkEnv {
  user : option string;
  utc_offset : Z;
  formatDate : Z → string;
  timeText : Z → string;
  reply_appointment : Reply;
  reply_request : Reply;
  reply_notification : Reply
}.

Record Outcome := mkOutcome {
  db : Db;
  toast : Toast;
  scheduled : bool
}.

Definition msPerDay : Z := 24 * 60 * 60 * 1000.

(** [new Date(`${date}T${time}`)]: a date and time without offset is read in
    local time, here at the offset [utc_offset env] that is in force at the
    current instant. *)
Definition instant_of (env : Env) (day minutes : Z) : Z :=
  day * msPerDay + minutes * 60000 - utc_offset env.

(** [getMinDate]: [today.toISOString().split('T')[0]], the UTC day of [now]. *)
Definition getMinDate (now : Z) : Z := now `div` msPerDay.

(** [getMaxDate]: [setDate(getDate() + 30)] moves the clock to the same local
    time of day 30 calendar days on, and [toISOString().split('T')[0]] takes
    the UTC day of that instant.  [offset_then] is the offset of local time
    from UTC, in milliseconds, in force at that later local time; it differs
    from [utc_offset env] when a change of the clocks lies in between. *)
Definition getMaxDate (env : Env) (offset_then now : Z) : Z :=
  (now + utc_offset env + 30 * msPerDay - offset_then) `div` msPerDay.

(** The [min] and [max] attributes of the date input: the days the input
    itself holds to be in range. *)
Definition dateInputInRange (env : Env) (offset_then now day : Z) : bool :=
  bool_decide (getMinDate now ≤ day ≤ getMaxDate env offset_then now).

(** The current date on the user's own calendar: the local day of [now]. *)
Definition localDay (env : Env) (now : Z) : Z :=
  (now + utc_offset env) `div` msPerDay.

Definition authentication_required : Toast :=
  mkToast "Authentication Required" "Please log in to schedule an appointment." true.
Definition missing_information : Toast :=
  mkToast "Missing Information" "Please fill in all required fields." true.
Definition scheduling_failed : Toast :=
  mkToast "Scheduling Failed" "Failed to schedule appointment. Please try again." true.
Definition appointment_scheduled (env : Env) (donor : Donor) (day minutes : Z) : Toast :=
  mkToast "Appointment Scheduled"
    ("Appointment scheduled with " +:+ first_name donor +:+ " " +:+ last_name donor
       +:+ " for " +:+ formatDate env day +:+ " at " +:+ timeText env minutes)
    false.

(** A truthy string: present and not empty. *)
Definition truthy (s : option string) : option string :=
  match s with
  | Some x => if decide (x = "") then None else Some x
  | None => None
  end.

(** The row [handleSubmit] inserts into [appointments]. *)
Definition new_appointment (env : Env) (hospital : string) (donor : Donor)
    (requestId : option string) (formData : AppointmentData)
    (day minutes : Z) : Appointment :=
  mkAppointment (truthy requestId) hospital (d_id donor)
    (instant_of env day minutes) None (Some (donationType formData))
    "pending" (Some (hospitalContact formData)) (Some (notes formData)).

(** The row [sendNotificationToDonor] inserts into [notifications]. *)
Definition confirmation (env : Env) (donor : Donor) (formData : AppointmentData)
    (day minutes : Z) : NewNotification :=
  mkNewNotification (d_id donor) None "Appointment Confirmation"
    ("Your donation appointment has been scheduled for " +:+ formatDate env day
       +:+ " at " +:+ timeText env minutes +:+ ". Hospital Contact: "
       +:+ hospitalContact formData)
    "appointment_confirmation" (Some false) None.

(** [sendNotificationToDonor]: a refused or rejected insert is only logged. *)
Definition sendNotificationToDonor (env : Env) (donor : Donor)
    (formData : AppointmentData) (day minutes : Z) (d : Db) : Db :=
  match reply_notification env with
  | Done => with_notifications
              (insert (confirmation env donor formData day minutes) (notifications d)) d
  | _ => d
  end.

(** The days [new Date(`${date}T${time}`)] reads: the date-time text has a
    year of four digits, 0001-01-01 (day -719162) to 9999-12-31 (day 2932896).
    The date input holds no earlier day; a later one gives a year of five or
    six digits, the text is no date-time, and [toISOString()] of the invalid
    date throws. *)
Definition dateTimeParses (day : Z) : bool :=
  bool_decide (-719162 ≤ day ≤ 2932896).

(** [handleSubmit].  The row to insert is built inside the [try], before the
    store is called: a date-time that is not read throws there, and the
    [catch] shows "Scheduling Failed". *)
Definition handleSubmit (env : Env) (donor : Donor) (requestId : option string)
    (formData : AppointmentData) (d : Db) : Outcome :=
  match truthy (user env) with
  | None => mkOutcome d authentication_required false
  | Some hospital =>
    match date formData, time formData, truthy (Some (hospitalContact formData)) with
    | Some day, Some minutes, Some _ =>
      if dateTimeParses day then
        match reply_appointment env with
        | Done =>
          let d1 :=
            with_appointments
              (insert (new_appointment env hospital donor requestId formData day minutes)
                 (appointments d)) d in
          let finish (d2 : Db) :=
            mkOutcome (sendNotificationToDonor env donor formData day minutes d2)
              (appointment_scheduled env donor day minutes) true in
          match truthy requestId with
          | Some rid =>
            match reply_request env with
            | Done =>
              finish (with_requests
                        (update_eq id rid (set_status "Scheduled") (requests d1)) d1)
            | _ => mkOutcome d1 scheduling_failed false
            end
          | None => finish d1
          end
        | _ => mkOutcome d scheduling_failed false
        end
      else mkOutcome d scheduling_failed false
    | _, _, _ => mkOutcome d missing_information false
    end
  end.

(** The form's own check.  [handleSubmit] is the [onSubmit] of the form, and
    the browser submits a form only when each of its inputs is valid: the date
    input is [required] and has [min={getMinDate()}] and [max={getMaxDate()}],
    the time input and the contact input are [required].  [now] is the
    instant the form was rendered at. *)
Definition formIsValid (env : Env) (offset_then now : Z)
    (formData : AppointmentData) : bool :=
  match date formData, time formData with
  | Some day, Some _ =>
    dateInputInRange env offset_then now day
      && bool_decide (hospitalContact formData ≠ "")
  | _, _ => false
  end.

(** Pressing the form's submit button: an invalid form is not submitted and
    [handleSubmit] does not run ([None]); a valid one is handed to
    [handleSubmit]. *)
Definition submit (env : Env) (offset_then now : Z) (donor : Donor)
    (requestId : option string) (formData : AppointmentData) (d : Db)
    : option Outcome :=
  if formIsValid env offset_then now formData
  then Some (handleSubmit env donor requestId formData d)
  else None.

(** [env] with another answer of the store to the insert of the donor's
    notification. *)
Definition with_reply_notification (reply : Reply) (env : Env) : Env :=
  mkEnv (user env) (utc_offset env) (formatDate env) (timeText env)
    (reply_appointment env) (reply_request env) reply.

End AppointmentForm.

(** ** The hospital's request list (src/components/hospital/RequestsList.tsx) *)

Module RequestsList.
Import Supabase.

(** The statuses [updateRequestStatus] accepts:
    ['Accepted' | 'Ignored' | 'Scheduled']. *)
Inductive NewStatus := Accepted | Ignored | Scheduled.

Definition status_text (s : NewStatus) : string :=
  match s with
  | Accepted => "Accepted"
  | Ignored => "Ignored"
  | Scheduled => "Scheduled"
  end.

(** The store, the component's [requests] state, the toast shown, and
    whether [onRequestUpdate] was called. *)
Record Outcome := mkOutcome {
  db : Db;
  shown : list Request;
  toast : Toast;
  updated : bool
}.

Definition status_updated (s : NewStatus) : Toast :=
  mkToast "Status Updated" ("Request status updated to " +:+ status_text s) false.
Definition update_failed : Toast :=
  mkToast "Update Failed" "Failed to update request status. Please try again." true.

(** [updateRequestStatus] *)
Definition updateRequestStatus (reply : Reply) (requestId : string) (s : NewStatus)
    (d : Db) (prev : list Request) : Outcome :=
  match reply with
  | Done =>
    mkOutcome
      (with_requests (update_eq id requestId (set_status (status_text s)) (requests d)) d)
      (update_eq id requestId (set_status (status_text s)) prev)
      (status_updated s) true
  | _ => mkOutcome d prev update_failed false
  end.

(** The buttons of a row: [{request.status === 'Pending' && (...)}], Accept
    calling [updateRequestStatus(request.id, 'Accepted')] and Ignore calling
    [updateRequestStatus(request.id, 'Ignored')]. *)
Definition rowButtons (request : Request) : list NewStatus :=
  if decide (status request = "Pending") then [Accepted; Ignored] else [].

(** [convertMlToUnits]: [Math.round(ml / 450)], the nearest whole number of
    units, a half rounding upwards.  The code divides two doubles and rounds
    the double quotient; the definition rounds the exact quotient.  The two
    agree on the quantities of [exactMl] below, not on all numbers. *)
Definition convertMlToUnits (ml : Z) : Z := ((2 * ml + 450) `div` 900)%Z.

(** The quantities on which [convertMlToUnits] is the code: the whole numbers
    of millilitres up to 2^31 in size.  There the double quotient is within
    2^-30 of the exact one, and the exact one is either a half itself, which
    is a double, or at least 1/450 away from every half, so both round to the
    same whole number; and [unitsRequired * 450] is exact. *)
Definition exactMl (ml : Z) : Prop := (- 2 ^ 31 ≤ ml ≤ 2 ^ 31)%Z.

(** A row of [requests] with the [created_by] column on which the list
    filters.  A stored row without status is held with the empty status; the
    list reads both as missing ([request.status || 'Pending']). *)
Record Stored := mkStored {
  row : Request;
  created_by : option string
}.

(** [a] was not created before [b]. *)
Definition newer (a b : Stored) : Prop := (created_at (row b) ≤ created_at (row a))%Z.

#[global] Instance newer_dec a b : Decision (newer a b).
Proof. unfold newer. apply _. Defined.

(** [{ ...request, status: request.status || 'Pending' }] *)
Definition withStatus (request : Request) : Request :=
  if decide (status request = "") then set_status "Pending" request else request.

Definition fetch_failed : Toast :=
  mkToast "Error" "Failed to fetch requests. Please try again." true.

(** [fetchRequests]: nothing happens without a logged-in user; otherwise the
    requests the user created are loaded, newest first, each with a status;
    when the query is refused or rejects, the list stays and an error is
    shown. *)
Definition fetchRequests (user : option string) (reply : Reply)
    (table : list Stored) (prev : list Request) : list Request * option Toast :=
  match user with
  | None | Some "" => (prev, None)
  | Some uid =>
    match reply with
    | Done =>
      (withStatus <$>
         (row <$> merge_sort newer (filter (λ s, created_by s = Some uid) table)),
       None)
    | _ => (prev, Some fetch_failed)
    end
  end.

#[global] Instance NewStatus_eq_dec : EqDecision NewStatus.
Proof. solve_decision. Defined.

(** A press of a button of the list: the button [s] of the [i]-th row shown.
    It does something only if the row is there and shows that button, and
    then calls [updateRequestStatus(request.id, s)]; [reply] is the store's
    answer to that call. *)
Definition press (reply : Reply) (i : nat) (s : NewStatus)
    (d : Db) (prev : list Request) : Db * list Request :=
  match prev !! i with
  | Some request =>
    if decide (s ∈ rowButtons request)
    then let o := updateRequestStatus reply (id request) s d prev in (db o, shown o)
    else (d, prev)
  | None => (d, prev)
  end.

(** A run of presses. *)
Fixpoint presses (run : list (Reply * nat * NewStatus))
    (d : Db) (prev : list Request) : Db * list Request :=
  match run with
  | [] => (d, prev)
  | (reply, i, s) :: rest =>
    let '(d', prev') := press reply i s d prev in presses rest d' prev'
  end.

End RequestsList.

(** ** The request form (src/components/hospital/RequestForm.tsx) *)

Module RequestForm.

(** The units field's [onChange]: [parseInt(e.target.value) || 1].  [typed] is
    what [parseInt] reads from the field, [None] when it reads no number. *)
Definition onUnitsRequiredChange (typed : option Z) : Z :=
  match typed with
  | Some 0%Z | None => 1%Z
  | Some n => n
  end.

(** The [quantity_ml] column of the row that [handleSubmit] inserts:
    [formData.unitsRequired * 450]. *)
Definition quantity_ml (unitsRequired : Z) : Z := (unitsRequired * 450)%Z.

End RequestForm.

(** ** The hospital's donor list (src/components/hospital/DonorProfiles.tsx) *)

Module DonorProfiles.
Import Supabase.

Record Outcome := mkOutcome {
  db : Db;
  donors : list Profile;
  toast : Toast
}.

Definition donor_ignored : Toast :=
  mkToast "Donor Ignored" "Donor has been removed from the available list." false.
Definition ignore_failed : Toast :=
  mkToast "Error" "Failed to ignore donor. Please try again." true.

(** [handleIgnoreDonor]: the donor's profile is marked unavailable and the
    donor leaves the component's list. *)
Definition handleIgnoreDonor (reply : Reply) (donorId : string)
    (d : Db) (prev : list Profile) : Outcome :=
  match reply with
  | Done =>
    mkOutcome
      (with_profiles (update_eq p_id donorId set_unavailable (profiles d)) d)
      (filter (λ donor, p_id donor ≠ donorId) prev)
      donor_ignored
  | _ => mkOutcome d prev ignore_failed
  end.

(** The rows that [fetchDonors] loads:
    [.from('profiles').select(...).eq('is_available', true)]. *)
Definition available_profiles (d : Db) : list Profile :=
  filter (λ donor, is_available donor = true) (profiles d).

End DonorProfiles.

(** ** The notification list (src/components/hospital/NotificationSystem.tsx) *)

Module NotificationSystem.
Import Supabase.
Local Open Scope Z_scope.

(** A notification as the component holds it, with the [user_id] column on
    which the query filters (the mock notifications have none). *)
Record Notification := mkNotification {
  n_id : string;
  n_user_id : option string;
  n_title : string;
  n_message : string;
  n_type : string;
  is_read : bool;
  n_created_at : Z
}.

(** The [notifications] table and the component's [notifications] state,
    which is the list the component renders, in this order. *)
Record State := mkState {
  table : list Notification;
  shown : list Notification
}.

(** [a] is not older than [b]. *)
Definition newer (a b : Notification) : Prop := n_created_at b ≤ n_created_at a.

#[global] Instance newer_dec a b : Decision (newer a b).
Proof. unfold newer. apply _. Defined.

(** [.select('*').eq('user_id', userId).order('created_at', { ascending: false })] *)
Definition select_for_user (userId : string) (t : list Notification) : list Notification :=
  merge_sort newer (filter (λ n, n_user_id n = Some userId) t).

(** [getMockNotifications], built at the instant [now]. *)
Definition getMockNotifications (now : Z) : list Notification :=
  [ mkNotification "1" None "Appointment Confirmation"
      "Your donation appointment has been scheduled for December 25, 2024 at 2:00 PM. Hospital Contact: +1-555-0123"
      "appointment_confirmation" false now;
    mkNotification "2" None "Appointment Reminder"
      "Reminder: You have a blood donation appointment tomorrow at 10:00 AM. Please arrive 15 minutes early."
      "appointment_reminder" true (now - 86400000);
    mkNotification "3" None "Request Update"
      "Your blood donation request has been accepted by City General Hospital."
      "request_update" false (now - 172800000) ].

(** [fetchNotifications]: the user's rows, newest first; the mock list when
    the query is refused or rejects. *)
Definition fetchNotifications (reply : Reply) (now : Z) (userId : string)
    (st : State) : State :=
  match reply with
  | Done => mkState (table st) (select_for_user userId (table st))
  | _ => mkState (table st) (getMockNotifications now)
  end.

(** [{ ...notification, is_read: true }] *)
Definition set_read (n : Notification) : Notification :=
  mkNotification (n_id n) (n_user_id n) (n_title n) (n_message n) (n_type n)
    true (n_created_at n).

Definition marked_as_read : Toast :=
  mkToast "Notification Marked as Read" "Notification has been marked as read." false.
Definition all_marked_as_read : Toast :=
  mkToast "All Notifications Marked as Read"
    "All notifications have been marked as read." false.
Definition notification_deleted : Toast :=
  mkToast "Notification Deleted" "Notification has been deleted." false.

(** [markAsRead]: the state it leaves and the toast it shows, if any.  A
    refused update is logged and the component's list is updated all the
    same; a rejected call is logged and nothing else happens. *)
Definition markAsRead (reply : Reply) (notificationId : string)
    (st : State) : State * option Toast :=
  match reply with
  | Done =>
    (mkState (update_eq n_id notificationId set_read (table st))
             (update_eq n_id notificationId set_read (shown st)),
     Some marked_as_read)
  | Refused _ =>
    (mkState (table st) (update_eq n_id notificationId set_read (shown st)),
     Some marked_as_read)
  | Thrown => (st, None)
  end.

(** [markAllAsRead], for the component's [donorId]: the store is updated
    only [if (donorId)]. *)
Definition markAllAsRead (reply : Reply) (donorId : option string)
    (st : State) : State * option Toast :=
  let local := mkState (table st) (set_read <$> shown st) in
  match donorId with
  | None | Some "" => (local, Some all_marked_as_read)
  | Some user =>
    match reply with
    | Done =>
      (mkState ((λ n, if decide (n_user_id n = Some user) then set_read n else n)
                  <$> table st)
               (set_read <$> shown st),
       Some all_marked_as_read)
    | Refused _ => (local, Some all_marked_as_read)
    | Thrown => (st, None)
    end
  end.

(** [deleteNotification] *)
Definition deleteNotification (reply : Reply) (notificationId : string)
    (st : State) : State * option Toast :=
  match reply with
  | Done =>
    (mkState (filter (λ n, n_id n ≠ notificationId) (table st))
             (filter (λ n, n_id n ≠ notificationId) (shown st)),
     Some notification_deleted)
  | Refused _ =>
    (mkState (table st) (filter (λ n, n_id n ≠ notificationId) (shown st)),
     Some notification_deleted)
  | Thrown => (st, None)
  end.

(** Two notifications that differ at most in the read flag. *)
Definition same_but_read (a b : Notification) : Prop :=
  n_id a = n_id b ∧ n_user_id a = n_user_id b ∧ n_title a = n_title b ∧
  n_message a = n_message b ∧ n_type a = n_type b ∧
  n_created_at a = n_created_at b.

(** [unreadCount]: [notifications.filter(n => !n.is_read).length], the number
    on the badge; the "Mark All Read" button is rendered when it is above 0. *)
Definition unreadCount (l : list Notification) : nat :=
  length (filter (λ n, is_read n = false) l).

End NotificationSystem.

(** ** The blood inventory (src/pages/hospital/HospitalDashboard.tsx) *)

Module HospitalDashboard.
Local Open Scope Z_scope.

(** [interface BloodType]: a blood group and its unit counter.  The counter is
    a JS number holding a whole number; the handlers' sums are written here as
    the exact ones, which they are up to [MAX_SAFE_INTEGER] below. *)
Record BloodType := mkBloodType {
  type : string;
  units : Z
}.

(** The component state the inventory handlers touch. *)
Record State := mkState {
  bloodInventory : list BloodType;
  editingType : option string;
  tempValue : Z
}.

(** [handleEditStart] *)
Definition handleEditStart (type0 : string) (currentUnits : Z) (st : State) : State :=
  mkState (bloodInventory st) (Some type0) currentUnits.

(** The edit field's [onChange]: [setTempValue(parseInt(e.target.value) || 0)].
    [typed] is what [parseInt] reads from the field, [None] when it reads no
    number. *)
Definition onTempValueChange (typed : option Z) (st : State) : State :=
  mkState (bloodInventory st) (editingType st) (default 0 typed).

(** [handleEditSave] *)
Definition handleEditSave (type0 : string) (st : State) : State * Toast :=
  (mkState
     ((λ blood, if decide (type blood = type0)
                then mkBloodType (type blood) (tempValue st) else blood)
        <$> bloodInventory st)
     None (tempValue st),
   mkToast "Blood Inventory Updated"
     (type0 +:+ " blood units updated to " +:+ pretty (tempValue st)) false).

(** [handleEditCancel] *)
Definition handleEditCancel (st : State) : State :=
  mkState (bloodInventory st) None 0.

(** [handleQuickUpdate] *)
Definition handleQuickUpdate (type0 : string) (change : Z) (st : State) : State * Toast :=
  (mkState
     ((λ blood, if decide (type blood = type0)
                then mkBloodType (type blood) (Z.max 0 (units blood + change))
                else blood)
        <$> bloodInventory st)
     (editingType st) (tempValue st),
   mkToast "Quick Update"
     (type0 +:+ " blood units "
        +:+ (if decide (change > 0) then "increased" else "decreased")
        +:+ " by " +:+ pretty (Z.abs change)) false).

(** The two buttons under each counter: [handleQuickUpdate(blood.type, -1)]
    and [handleQuickUpdate(blood.type, 1)]. *)
Inductive Adjust := Minus | Plus.

Definition change_of (a : Adjust) : Z :=
  match a with Minus => -1 | Plus => 1 end.

(** A run of presses of these buttons, each on the counter of a blood group. *)
Fixpoint quickUpdates (presses : list (string * Adjust)) (st : State) : State :=
  match presses with
  | [] => st
  | (t, a) :: rest => quickUpdates rest (handleQuickUpdate t (change_of a) st).1
  end.

(** Every counter of the inventory is at least 0. *)
Definition nonnegative (st : State) : Prop :=
  Forall (λ blood, 0 ≤ units blood) (bloodInventory st).

(** [getTotalUnits]: [bloodInventory.reduce((total, blood) => total + blood.units, 0)] *)
Definition getTotalUnits (st : State) : Z :=
  foldl (λ total blood, total + units blood) 0 (bloodInventory st).

(** The entries of the inventory for the blood group [t]. *)
Definition entries_of (t : string) (st : State) : list BloodType :=
  filter (λ blood, type blood = t) (bloodInventory st).

(** [Number.MAX_SAFE_INTEGER]: up to it the sum and difference of two whole
    numbers are exact in the code; from 2^53 on a change by one can be lost. *)
Definition MAX_SAFE_INTEGER : Z := 2 ^ 53 - 1.

(** The total stays a safe integer when every counter is raised by one; on an
    inventory without negative counters so does every counter and every
    partial sum of [getTotalUnits]. *)
Definition safe (st : State) : Prop :=
  getTotalUnits st + Z.of_nat (length (bloodInventory st)) ≤ MAX_SAFE_INTEGER.

End HospitalDashboard.



(** ** Scenarios

    The request, donors and stores of the scenarios the properties are tried
    on: request r1 (blood group B+, 2 units) of hospital h1, donors d1 and
    d2. *)

Module Scenario.
Import Supabase.
Local Open Scope Z_scope.

Definition r1_with (s : string) (donor : option string) (updated : option Z) : Request :=
  mkRequest "r1" "h1" "blood" "B+" 2 "High" "A. Patient" "Ward 3" None
    s donor 1000 updated.

(** r1 as the sample data of the donor dashboard and a fresh store have it. *)
Definition r1_pending : Request := r1_with "pending" None None.

(** Another request of the same hospital, never touched in the scenarios. *)
Definition r2_pending : Request :=
  mkRequest "r2" "h1" "plasma" "O-" 1 "Low" "B. Patient" "Ward 5" None
    "pending" None 2000 None.

Definition store (rs : list Request) : Db := mkDb rs [] [] [].

(** A logged-in donor whose three store calls are all carried out, the clock
    reading [t] at the update and [t + 5] at the insert. *)
Definition donor_env (donor : string) (t : Z) : DonorRequestCard.Env :=
  DonorRequestCard.mkEnv (Some donor) t (t + 5) Done Done Done.

(** The hospital h1 scheduling with donor d1, local time [offset] milliseconds
    ahead of UTC, every store call carried out. *)
Definition d1 : AppointmentForm.Donor :=
  AppointmentForm.mkDonor "d1" "Dee" "One" "B+" "555-0101" "Downtown".

Definition form_env (offset : Z) : AppointmentForm.Env :=
  AppointmentForm.mkEnv (Some "h1") offset pretty pretty Done Done Done.

(** A filled-in form for the calendar day [day] at [minutes] after midnight. *)
Definition form_for (day minutes : Z) : AppointmentForm.AppointmentData :=
  AppointmentForm.mkAppointmentData (Some day) (Some minutes) "555-0100" "" "blood".

(** Notifications of users u1 and u2, stored in no particular order. *)
Definition note (nid user : string) (read : bool) (created : Z)
    : NotificationSystem.Notification :=
  NotificationSystem.mkNotification nid (Some user) "Request Update"
    "Your request was updated." "request_update" read created.

Definition notes_table : list NotificationSystem.Notification :=
  [ note "n1" "u1" false 100; note "n2" "u2" false 400;
    note "n3" "u1" true 300; note "n4" "u1" false 200 ].

(** Noon UTC of day 20000 (2024-10-04). *)
Definition noon_20000 : Z := 20000 * AppointmentForm.msPerDay + 12 * 60 * 60 * 1000.

(** The notifications of u1 as loaded into the component. *)
Definition notes_loaded : NotificationSystem.State :=
  NotificationSystem.fetchNotifications Done 0 "u1"
    (NotificationSystem.mkState notes_table []).

(** An inventory with one entry for each of three blood groups. *)
Definition stock : HospitalDashboard.State :=
  HospitalDashboard.mkState
    [ HospitalDashboard.mkBloodType "O+" 0; HospitalDashboard.mkBloodType "A+" 7;
      HospitalDashboard.mkBloodType "B-" 3 ] None 0.

(** Two stored requests created by h1, one without a status, and one created
    by h2. *)
Definition stored_requests : list RequestsList.Stored :=
  [ RequestsList.mkStored (r1_with "" None None) (Some "h1");
    RequestsList.mkStored r2_pending (Some "h2");
    RequestsList.mkStored
      (mkRequest "r3" "h1" "blood" "A+" 1 "Low" "C. Patient" "Ward 1" None
         "Accepted" None 3000 None) (Some "h1") ].

(** The list of h1 with r1 Pending and r3 Accepted. *)
Definition h1_list : list Request :=
  (RequestsList.fetchRequests (Some "h1") Done stored_requests []).1.

(** A donor whose accept is carried out but whose appointment is refused. *)
Definition donor_env_refused (donor : string) (t : Z) : DonorRequestCard.Env :=
  DonorRequestCard.mkEnv (Some donor) t (t + 5) Done (Refused "no room") Done.

(** The hospital h1 scheduling while the store refuses the update of the
    request. *)
Definition form_env_refused : AppointmentForm.Env :=
  AppointmentForm.mkEnv (Some "h1") 0 pretty pretty Done (Refused "locked") Done.

End Scenario.
(** * Properties *)

(** ** Compatibility *)

Example matched_AB_pos :
  Dashboard.dd_id <$> Dashboard.matched "AB+" = ["d3"; "d1"].
Proof. vm_compute. reflexivity. Qed.

Example matched_O_neg : Dashboard.matched "O-" = [].
Proof. vm_compute. reflexivity. Qed.

(** The table read as a function of the donor group. *)
Lemma compat_lookup (d : string) :
  Dashboard.compat !! d =
    if decide ("O-" = d) then Some ["O-"; "O+"; "A-"; "A+"; "B-"; "B+"; "AB-"; "AB+"]
    else if decide ("O+" = d) then Some ["O+"; "A+"; "B+"; "AB+"]
    else if decide ("A-" = d) then Some ["A-"; "A+"; "AB-"; "AB+"]
    else if decide ("A+" = d) then Some ["A+"; "AB+"]
    else if decide ("B-" = d) then Some ["B-"; "B+"; "AB-"; "AB+"]
    else if decide ("B+" = d) then Some ["B+"; "AB+"]
    else if decide ("AB-" = d) then Some ["AB-"; "AB+"]
    else if decide ("AB+" = d) then Some ["AB+"]
    else None.
Proof.
  unfold Dashboard.compat.
  rewrite !list_to_map_cons, list_to_map_nil, !lookup_insert, lookup_empty.
  reflexivity.
Qed.

Ltac compat_cases d :=
  unfold Dashboard.compatible; rewrite (compat_lookup d);
  repeat (case_decide; [subst d | ]).

(** C4. The compatibility filter accepts, for a request of group AB+, the
    donors of every one of the eight ABO/Rh groups (and no other donor type),
    and, for a request of group O-, exactly the donors of group O-. *)
Theorem compatible_AB_pos_all_O_neg_only :
  (∀ d, Dashboard.compatible d "AB+" = true ↔ d ∈ Dashboard.bloodGroups) ∧
  (∀ d, Dashboard.compatible d "O-" = true ↔ d = "O-").
Proof.
  split; intros d.
  - compat_cases d.
    1-8: split; [intros _; unfold Dashboard.bloodGroups; set_solver
                | intros _; vm_compute; reflexivity].
    split; [intros Hc; vm_compute in Hc; discriminate | ].
    unfold Dashboard.bloodGroups. intros Hc.
    repeat (apply elem_of_cons in Hc as [-> | Hc]; [congruence | ]).
    by apply elem_of_nil in Hc.
  - compat_cases d.
    1: split; [reflexivity | intros _; vm_compute; reflexivity].
    1-7: split; [intros Hc; vm_compute in Hc; discriminate | intros Hc; discriminate].
    split; [intros Hc; vm_compute in Hc; discriminate | intros ->; congruence].
Qed.

(** ** Accepting a request *)

Section DonorRequestCardFacts.
Import Supabase DonorRequestCard.
Local Open Scope Z_scope.

Lemma Forall2_fmap_self {A B} (R : A → B → Prop) (f : A → B) (l : list A) :
  (∀ x, R x (f x)) → Forall2 R l (f <$> l).
Proof. intros HR. induction l; constructor; auto. Qed.


Lemma same_payload_refl r : same_payload r r.
Proof. repeat split. Qed.


Lemma same_payload_set_resolution donor s now r :
  same_payload r (set_resolution donor s now r).
Proof. repeat split. Qed.


Lemma resolved_as_step request s donor now rows :
  Forall2 (resolved_as request s (Some donor)) rows
    (update_eq id (id request) (set_resolution donor s now) rows).
Proof.
  apply Forall2_fmap_self. intros r. unfold resolved_as.
  case_decide; [|done]. repeat split.
Qed.



(** C10. When a donor's accept succeeds (a donor is logged in and the store
    carries out the update), the stored request is accepted and assigned to
    that donor whatever becomes of the appointment insert; when the store
    carries out that insert, the appointment table gains one row for this
    request, donor and hospital, with status "scheduled", time "10:00 AM" and
    a date 24 hours after the instant the handler reads once the accept is
    answered; when it does not, the table is as before and the request stays
    accepted. *)
Theorem handleAccept_creates_appointment (env : Env) (request : Request)
    (d : Db) (donor : string) :
  donor_of env = Some donor →
  reply_update env = Done →
  Forall2 (resolved_as request "accepted" (Some donor)) (requests d)
    (requests (db (handleAccept env request d))) ∧
  (reply_appointment env = Done →
   ∃ a, appointments (db (handleAccept env request d)) = appointments d ++ [a] ∧
        a_status a = "scheduled" ∧
        appointment_date a = now_insert env + 24 * 60 * 60 * 1000 ∧
        appointment_time a = Some "10:00 AM" ∧
        a_request_id a = Some (id request) ∧
        a_donor_id a = donor ∧
        a_hospital_id a = hospital_id request) ∧
  (reply_appointment env ≠ Done →
   appointments (db (handleAccept env request d)) = appointments d).
Proof.
  intros Hd Hu. unfold handleAccept. rewrite Hd, Hu.
  split; [|split].
  - destruct (reply_appointment env), (reply_notification env); simpl;
      apply resolved_as_step.
  - intros Ha. rewrite Ha. exists (accept_appointment env request donor). split.
    + destruct (reply_notification env); reflexivity.
    + repeat split.
  - intros Ha.
    destruct (reply_appointment env), (reply_notification env); simpl; done.
Qed.

(** C3 (amended). A donor's ignore is a change of the shared record: when a
    donor is logged in and the store carries out the update, every stored
    request with the card's id gets status "ignored", that donor as its
    donor_id and the current instant as its updated_at, whatever its status
    was (an accepted request included), its other columns and the other
    requests staying as they were, and the donor is told "Request Ignored".
    The hospital's ignore of a donor changes no request. *)
Theorem handleIgnore_changes_shared_request (env : Env) (request : Request)
    (d : Db) (donor : string) :
  donor_of env = Some donor →
  reply_update env = Done →
  toast (handleIgnore env request d) = request_ignored ∧
  Forall2 (resolved_as request "ignored" (Some donor)) (requests d)
    (requests (db (handleIgnore env request d))) ∧
  Forall (λ r, id r = id request → updated_at r = Some (now_update env))
    (requests (db (handleIgnore env request d))) ∧
  (∀ reply donorId prev,
     requests (DonorProfiles.db (DonorProfiles.handleIgnoreDonor reply donorId d prev))
       = requests d).
Proof.
  intros Hd Hu. unfold handleIgnore. rewrite Hd, Hu. simpl.
  split; [done|]. split; [apply resolved_as_step|]. split.
  - unfold update_eq. apply Forall_fmap, Forall_forall. intros r _. simpl.
    destruct (decide (id r = id request)) as [|Hne]; simpl; [done|].
    intros Hid. by destruct Hne.
  - intros [] ??; reflexivity.
Qed.

End DonorRequestCardFacts.

Section AcceptScenarios.
Import Supabase DonorRequestCard Scenario.
Local Open Scope Z_scope.



Lemma handleAccept_creates_appointment_witness :
  donor_of (donor_env "d1" 5000) = Some "d1" ∧
  reply_update (donor_env "d1" 5000) = Done ∧
  (Forall2 (resolved_as r1_pending "accepted" (Some "d1"))
     (requests (store [r1_pending]))
     (requests (db (handleAccept (donor_env "d1" 5000) r1_pending (store [r1_pending])))) ∧
   (reply_appointment (donor_env "d1" 5000) = Done →
    ∃ a, appointments
           (db (handleAccept (donor_env "d1" 5000) r1_pending (store [r1_pending])))
           = appointments (store [r1_pending]) ++ [a] ∧
         a_status a = "scheduled" ∧
         appointment_date a = now_insert (donor_env "d1" 5000) + 24 * 60 * 60 * 1000 ∧
         appointment_time a = Some "10:00 AM" ∧
         a_request_id a = Some (id r1_pending) ∧
         a_donor_id a = "d1" ∧
         a_hospital_id a = hospital_id r1_pending) ∧
   (reply_appointment (donor_env "d1" 5000) ≠ Done →
    appointments (db (handleAccept (donor_env "d1" 5000) r1_pending (store [r1_pending])))
      = appointments (store [r1_pending]))).
Proof.
  split; [reflexivity|]. split; [reflexivity|].
  apply (handleAccept_creates_appointment (donor_env "d1" 5000) r1_pending
           (store [r1_pending]) "d1"); reflexivity.
Defined.

Example accept_appointment_row :
  appointments (db (handleAccept (donor_env "d1" 5000) r1_pending (store [r1_pending])))
    = [mkAppointment (Some "r1") "h1" "d1" 86405005 (Some "10:00 AM") None
         "scheduled" None None].
Proof. reflexivity. Qed.

(** The insert of the appointment is refused: the request stays accepted. *)
Example accept_survives_refused_appointment :
  let o := handleAccept
             (mkEnv (Some "d1") 5000 5005 Done (Refused "row-level security") Done)
             r1_pending (store [r1_pending]) in
  requests (db o) = [r1_with "accepted" (Some "d1") (Some 5000)] ∧
  appointments (db o) = [] ∧ toast o = request_accepted.
Proof. repeat split. Qed.

Lemma handleIgnore_changes_shared_request_witness :
  donor_of (donor_env "d2" 6000) = Some "d2" ∧
  reply_update (donor_env "d2" 6000) = Done ∧
  (toast (handleIgnore (donor_env "d2" 6000) r1_pending (store [r1_pending]))
     = request_ignored ∧
   Forall2 (resolved_as r1_pending "ignored" (Some "d2"))
     (requests (store [r1_pending]))
     (requests (db (handleIgnore (donor_env "d2" 6000) r1_pending (store [r1_pending])))) ∧
   Forall (λ r, id r = id r1_pending → updated_at r = Some (now_update (donor_env "d2" 6000)))
     (requests (db (handleIgnore (donor_env "d2" 6000) r1_pending (store [r1_pending])))) ∧
   (∀ reply donorId prev,
      requests (DonorProfiles.db
                  (DonorProfiles.handleIgnoreDonor reply donorId (store [r1_pending]) prev))
        = requests (store [r1_pending]))).
Proof.
  split; [reflexivity|]. split; [reflexivity|].
  apply (handleIgnore_changes_shared_request (donor_env "d2" 6000) r1_pending
           (store [r1_pending]) "d2"); reflexivity.
Defined.

(** C3 as stated fails. (1) d2 ignores the pending r1: the stored record, which
    every donor and the hospital read, becomes ignored and names d2.  (2) r1 is
    stored as accepted by d1; d2, whose card still shows it pending, ignores
    it: the stored record loses d1's accept. *)
Lemma ignore_changes_shared_status :
  requests (db (handleIgnore (donor_env "d2" 6000) r1_pending (store [r1_pending])))
    = [r1_with "ignored" (Some "d2") (Some 6000)] ∧
  requests (db (handleIgnore (donor_env "d2" 6000) r1_pending
                  (store [r1_with "accepted" (Some "d1") (Some 5000)])))
    = [r1_with "ignored" (Some "d2") (Some 6000)] ∧
  r1_with "ignored" (Some "d2") (Some 6000) ≠ r1_pending ∧
  r1_with "ignored" (Some "d2") (Some 6000) ≠ r1_with "accepted" (Some "d1") (Some 5000).
Proof. repeat split; try reflexivity; vm_compute; intros [= ]. Qed.

End AcceptScenarios.

(** ** Scheduling and the hospital's status updates *)

Section SchedulingFacts.
Import Supabase AppointmentForm.
Local Open Scope Z_scope.

Lemma status_set_step rid s rows :
  Forall2 (status_set rid s) rows (update_eq id rid (set_status s) rows).
Proof.
  apply Forall2_fmap_self. intros r. unfold status_set.
  case_decide; [|done]. repeat split.
Qed.

(** The form is complete, its date is read, and the handler gets as far as
    the store. *)
Lemma handleSubmit_scheduled_inv env donor requestId formData d :
  scheduled (handleSubmit env donor requestId formData d) = true →
  ∃ hospital day minutes,
    truthy (user env) = Some hospital ∧ date formData = Some day ∧
    time formData = Some minutes ∧ hospitalContact formData ≠ "" ∧
    dateTimeParses day = true ∧
    reply_appointment env = Done ∧
    (is_Some (truthy requestId) → reply_request env = Done).
Proof.
  unfold handleSubmit.
  destruct (truthy (user env)) as [hospital|]; [|discriminate].
  destruct (date formData) as [day|]; [|discriminate].
  destruct (time formData) as [minutes|]; [|discriminate].
  destruct (truthy (Some (hospitalContact formData))) as [c|] eqn:Hc; [|discriminate].
  destruct (dateTimeParses day) eqn:Hp; [|discriminate].
  destruct (reply_appointment env); try discriminate.
  intros Hs. exists hospital, day, minutes. repeat split; try done.
  - intros E. simpl in Hc. rewrite E in Hc. discriminate.
  - intros [rid Hrid]. rewrite Hrid in Hs.
    destruct (reply_request env); done.
Qed.

(** C2 (amended). No operation checks the current status, and none fails with
    InvalidTransition.  A scheduling that succeeds for a request sets its
    status to "Scheduled" whatever its status was; [updateRequestStatus], when
    the store carries it out, sets the status it is given (Accepted, Ignored
    or Scheduled) whatever the status was, in the store and in the list shown;
    both leave the other columns of the request and the other requests as
    they were.  The request list shows its Accept and Ignore buttons only on a
    row whose status it holds to be Pending. *)
Theorem status_updates_are_unguarded (env : Env) (donor : Donor) (rid : string)
    (formData : AppointmentData) (d : Db) :
  rid ≠ "" →
  scheduled (handleSubmit env donor (Some rid) formData d) = true →
  Forall2 (status_set rid "Scheduled") (requests d)
    (requests (db (handleSubmit env donor (Some rid) formData d))) ∧
  (∀ requestId s prev,
     let o := RequestsList.updateRequestStatus Done requestId s d prev in
     Forall2 (status_set requestId (RequestsList.status_text s)) (requests d)
       (requests (RequestsList.db o)) ∧
     Forall2 (status_set requestId (RequestsList.status_text s)) prev
       (RequestsList.shown o) ∧
     RequestsList.toast o = RequestsList.status_updated s) ∧
  (∀ r, status r ≠ "Pending" → RequestsList.rowButtons r = []) ∧
  (∀ r, RequestsList.rowButtons r ⊆ [RequestsList.Accepted; RequestsList.Ignored]).
Proof.
  intros Hrid Hs.
  destruct (handleSubmit_scheduled_inv _ _ _ _ _ Hs)
    as (hospital & day & minutes & Hu & Hd & Ht & Hc & Hp & Ha & Hr).
  assert (truthy (Some rid) = Some rid) as Htr
    by (simpl; by rewrite decide_False).
  rewrite Htr in Hr. specialize (Hr (mk_is_Some _ _ eq_refl)).
  split; [|split; [|split]].
  - unfold handleSubmit. rewrite Hu, Hd, Ht. simpl truthy at 1.
    rewrite (decide_False (P := hospitalContact formData = "")) by done.
    rewrite Hp, Ha, Htr, Hr. unfold sendNotificationToDonor.
    destruct (reply_notification env); simpl; apply status_set_step.
  - intros requestId s prev. simpl.
    repeat split; apply status_set_step.
  - intros r Hne. unfold RequestsList.rowButtons. by rewrite decide_False.
  - intros r. unfold RequestsList.rowButtons. case_decide; set_solver.
Qed.

(** Without a change of the clocks in between, the last day of the date input
    is 30 days after its first. *)
Lemma getMaxDate_same_offset env now :
  getMaxDate env (utc_offset env) now = getMinDate now + 30.
Proof.
  unfold getMaxDate, getMinDate.
  replace (now + utc_offset env + 30 * msPerDay - utc_offset env)
    with (now + 30 * msPerDay) by lia.
  rewrite Z.div_add by (unfold msPerDay; lia). done.
Qed.

(** With local time less than a day from UTC now and 30 days on, the last day
    of the date input is 28 to 32 days after its first. *)
Lemma getMaxDate_bounds env offset_then now :
  - msPerDay < utc_offset env < msPerDay →
  - msPerDay < offset_then < msPerDay →
  getMinDate now + 28 ≤ getMaxDate env offset_then now ≤ getMinDate now + 32.
Proof.
  intros Hoff Hthen. unfold getMaxDate, getMinDate, msPerDay in *.
  assert (24 * 60 * 60 * 1000 = 86400000) as E by reflexivity.
  rewrite E in *. clear E.
  set (later := now + utc_offset env + 30 * 86400000 - offset_then).
  pose proof (Z.div_mod now 86400000 ltac:(lia)) as H1.
  pose proof (Z.mod_pos_bound now 86400000 ltac:(lia)) as H2.
  pose proof (Z.div_mod later 86400000 ltac:(lia)) as H3.
  pose proof (Z.mod_pos_bound later 86400000 ltac:(lia)) as H4.
  unfold later in *. lia.
Qed.

(** The user's today lies within a day of the first day of the date input. *)
Lemma localDay_getMinDate env now :
  - msPerDay < utc_offset env < msPerDay →
  getMinDate now - 1 ≤ localDay env now ≤ getMinDate now + 1.
Proof.
  intros Hoff. unfold localDay, getMinDate, msPerDay in *.
  assert (24 * 60 * 60 * 1000 = 86400000) as E by reflexivity.
  rewrite E in *. clear E.
  pose proof (Z.div_mod now 86400000 ltac:(lia)) as H1.
  pose proof (Z.mod_pos_bound now 86400000 ltac:(lia)) as H2.
  pose proof (Z.div_mod (now + utc_offset env) 86400000 ltac:(lia)) as H3.
  pose proof (Z.mod_pos_bound (now + utc_offset env) 86400000 ltac:(lia)) as H4.
  lia.
Qed.

(** A form that is not valid is not submitted: the handler does not run, and
    nothing is stored or shown. *)
Lemma submit_invalid env offset_then now donor requestId formData d :
  date formData = None ∨ time formData = None ∨ hospitalContact formData = "" ∨
  (∃ day, date formData = Some day ∧
          (day < getMinDate now ∨ getMaxDate env offset_then now < day)) →
  submit env offset_then now donor requestId formData d = None.
Proof.
  intros Hbad. unfold submit.
  assert (formIsValid env offset_then now formData = false) as ->; [|done].
  unfold formIsValid, dateInputInRange.
  destruct (date formData) as [day|]; [|done].
  destruct (time formData) as [minutes|]; [|done].
  destruct Hbad as [?|[?|[Hc|(day' & [= <-] & Hout)]]]; try discriminate.
  - rewrite Hc. apply andb_false_iff. right. by apply bool_decide_eq_false; intros ?.
  - apply andb_false_iff. left. apply bool_decide_eq_false. lia.
Qed.

(** The form turns away every day 40 days or more after the user's today:
    nothing is submitted, no appointment is created and no request changes. *)
Lemma submit_rejects_40_days_ahead env offset_then now donor requestId formData d
    (day : Z) :
  - msPerDay < utc_offset env < msPerDay →
  - msPerDay < offset_then < msPerDay →
  date formData = Some day →
  localDay env now + 40 ≤ day →
  submit env offset_then now donor requestId formData d = None.
Proof.
  intros Hoff Hthen Hd Hday. apply submit_invalid.
  right. right. right. exists day. split; [done|]. right.
  pose proof (getMaxDate_bounds env offset_then now Hoff Hthen).
  pose proof (localDay_getMinDate env now Hoff). lia.
Qed.

(** Where the user's day is the UTC day and the clocks do not change within
    the 30 days, the form is valid exactly for a filled-in form whose date is
    the user's today or one of the 30 days after it. *)
Lemma formIsValid_when_days_agree env now formData :
  localDay env now = getMinDate now →
  formIsValid env (utc_offset env) now formData = true ↔
  ∃ day minutes,
    date formData = Some day ∧ time formData = Some minutes ∧
    hospitalContact formData ≠ "" ∧
    localDay env now ≤ day ≤ localDay env now + 30.
Proof.
  intros Hsame. unfold formIsValid, dateInputInRange.
  rewrite getMaxDate_same_offset, Hsame.
  destruct (date formData) as [day|]; [|split; [done|intros (?&?&?&_); done]].
  destruct (time formData) as [minutes|]; [|split; [done|intros (?&?&?&?&_); done]].
  rewrite andb_true_iff, !bool_decide_eq_true. split.
  - intros [Hr Hc]. by exists day, minutes.
  - intros (day' & minutes' & [= <-] & _ & Hc & Hr). done.
Qed.

End SchedulingFacts.

Section SchedulingScenarios.
Import Supabase AppointmentForm Scenario.
Local Open Scope Z_scope.

Lemma status_updates_are_unguarded_witness :
  "r1" ≠ "" ∧
  scheduled (handleSubmit (form_env 0) d1 (Some "r1") (form_for 20005 600)
               (store [r1_with "Pending" None None])) = true ∧
  Forall2 (status_set "r1" "Scheduled")
    (requests (store [r1_with "Pending" None None]))
    (requests (db (handleSubmit (form_env 0) d1 (Some "r1") (form_for 20005 600)
                     (store [r1_with "Pending" None None])))).
Proof.
  split; [done|]. split; [reflexivity|].
  apply (status_updates_are_unguarded (form_env 0) d1 "r1" (form_for 20005 600)
           (store [r1_with "Pending" None None])); [done|reflexivity].
Defined.

(** The rejections of [handleSubmit]: nobody logged in, and an empty date. *)
Example handleSubmit_rejections :
  handleSubmit (mkEnv None 0 pretty pretty Done Done Done) d1 (Some "r1")
    (form_for 20005 600) (store [r1_with "Accepted" (Some "d1") None])
    = mkOutcome (store [r1_with "Accepted" (Some "d1") None])
        authentication_required false ∧
  handleSubmit (form_env 0) d1 (Some "r1")
    (mkAppointmentData None (Some 600) "555-0100" "" "blood")
    (store [r1_with "Accepted" (Some "d1") None])
    = mkOutcome (store [r1_with "Accepted" (Some "d1") None])
        missing_information false.
Proof. split; reflexivity. Qed.

(** The range of the date input at noon UTC of day 20000. *)
Example dateInput_range :
  getMinDate noon_20000 = 20000 ∧ getMaxDate (form_env 0) 0 noon_20000 = 20030 ∧
  dateInputInRange (form_env 0) 0 noon_20000 20030 = true ∧
  dateInputInRange (form_env 0) 0 noon_20000 20031 = false ∧
  dateInputInRange (form_env 0) 0 noon_20000 19999 = false.
Proof. repeat split. Qed.

(** A change of the clocks moves the last day of the date input.  At 23:30
    UTC of day 20000, with local time four hours behind UTC now and five hours
    behind 30 days on, the same local time 30 days on is 00:30 UTC of day
    20031. *)
Example dateInput_range_clock_change :
  getMaxDate (form_env (-14400000)) (-18000000) (20000 * msPerDay + 84600000) = 20031 ∧
  getMaxDate (form_env (-14400000)) (-14400000) (20000 * msPerDay + 84600000) = 20030.
Proof. split; reflexivity. Qed.

(** A day the parser does not read, the first of the year 10000: the handler
    reports "Scheduling Failed" and stores nothing. *)
Example handleSubmit_year_10000 :
  handleSubmit (form_env 0) d1 (Some "r1") (form_for 2932897 600)
    (store [r1_with "Accepted" (Some "d1") None])
    = mkOutcome (store [r1_with "Accepted" (Some "d1") None])
        scheduling_failed false.
Proof. reflexivity. Qed.

(** At noon UTC of day 20000, on a calendar that is on UTC, the form is not
    submitted for a day 40 days ahead, nor for a day in the past. *)
Example submit_outside_range :
  submit (form_env 0) 0 noon_20000 d1 (Some "r1") (form_for 20040 600)
    (store [r1_with "Accepted" (Some "d1") None]) = None ∧
  submit (form_env 0) 0 noon_20000 d1 (Some "r1") (form_for 19990 600)
    (store [r1_with "Accepted" (Some "d1") None]) = None.
Proof. split; reflexivity. Qed.

(** C2 as stated fails.  Scheduling a request that is still Pending, or one
    that is Ignored, succeeds and leaves it Scheduled; an Ignore pressed on a
    row the list still holds to be Pending sets a request stored as Scheduled
    to Ignored.  In each case the handler reports success. *)
Lemma schedule_from_any_status :
  (let o := handleSubmit (form_env 0) d1 (Some "r1") (form_for 20005 600)
              (store [r1_with "Pending" None None]) in
   status <$> requests (db o) = ["Scheduled"] ∧
   title (toast o) = "Appointment Scheduled") ∧
  (let o := handleSubmit (form_env 0) d1 (Some "r1") (form_for 20005 600)
              (store [r1_with "Ignored" None None]) in
   status <$> requests (db o) = ["Scheduled"] ∧
   title (toast o) = "Appointment Scheduled") ∧
  (let o := RequestsList.updateRequestStatus Done "r1" RequestsList.Ignored
              (store [r1_with "Scheduled" None None]) [r1_with "Pending" None None] in
   RequestsList.Ignored ∈ RequestsList.rowButtons (r1_with "Pending" None None) ∧
   status <$> requests (RequestsList.db o) = ["Ignored"] ∧
   title (RequestsList.toast o) = "Status Updated").
Proof.
  cbv zeta. repeat split; try reflexivity.
  vm_compute. apply list_elem_of_further, list_elem_of_here.
Qed.

(** C5. The form holds the chosen date to the days from [getMinDate()] to
    [getMaxDate()], but both are UTC days, while the date chosen is a day of
    the user's own calendar.  (1) At 19:30 UTC of day 20000, which is 01:00 of
    day 20001 on a calendar five and a half hours ahead of UTC, the form for
    10:00 of day 20000, the user's yesterday, is valid and is submitted: the
    appointment is stored for an instant before the current one, the request
    becomes Scheduled and "Appointment Scheduled" is shown.  (2) At 01:00 UTC
    of day 20000, which is 17:00 of day 19999 on a calendar eight hours behind
    UTC, the form for day 20030, 31 days after the user's today, is valid and
    is submitted, and the appointment is stored. *)
Theorem submit_accepts_days_outside_window :
  (let now := 20000 * msPerDay + 70200000 in
   let env := form_env 19800000 in
   localDay env now = 20001 ∧
   getMinDate now = 20000 ∧
   formIsValid env 19800000 now (form_for 20000 600) = true ∧
   ∃ o, submit env 19800000 now d1 (Some "r1") (form_for 20000 600)
          (store [r1_with "Accepted" (Some "d1") None]) = Some o ∧
        scheduled o = true ∧ title (toast o) = "Appointment Scheduled" ∧
        appointment_date <$> appointments (db o)
          = [20000 * msPerDay + 600 * 60000 - 19800000] ∧
        20000 * msPerDay + 600 * 60000 - 19800000 < now ∧
        status <$> requests (db o) = ["Scheduled"]) ∧
  (let now := 20000 * msPerDay + 3600000 in
   let env := form_env (-28800000) in
   localDay env now = 19999 ∧
   getMaxDate env (-28800000) now = 20030 ∧
   formIsValid env (-28800000) now (form_for 20030 600) = true ∧
   ∃ o, submit env (-28800000) now d1 (Some "r1") (form_for 20030 600)
          (store [r1_with "Accepted" (Some "d1") None]) = Some o ∧
        scheduled o = true ∧
        appointment_date <$> appointments (db o)
          = [20030 * msPerDay + 600 * 60000 + 28800000] ∧
        status <$> requests (db o) = ["Scheduled"]).
Proof.
  cbv zeta. split.
  - split; [reflexivity|]. split; [reflexivity|]. split; [reflexivity|].
    eexists. split; [reflexivity|]. repeat split; reflexivity.
  - split; [reflexivity|]. split; [reflexivity|]. split; [reflexivity|].
    eexists. split; [reflexivity|]. repeat split; reflexivity.
Qed.

End SchedulingScenarios.

(** ** Notifications *)

Section NotificationFacts.
Import Supabase NotificationSystem.
Local Open Scope Z_scope.

#[local] Instance newer_transitive : Transitive newer.
Proof. unfold newer. intros a b c ??. lia. Qed.

#[local] Instance newer_total : Total newer.
Proof. unfold newer. intros a b. lia. Qed.

Lemma set_read_idemp n : set_read (set_read n) = set_read n.
Proof. reflexivity. Qed.

Lemma update_set_read_idemp nid (l : list Notification) :
  update_eq n_id nid set_read (update_eq n_id nid set_read l)
    = update_eq n_id nid set_read l.
Proof.
  unfold update_eq. rewrite <- list_fmap_compose.
  apply list_fmap_ext. intros _ n _. simpl.
  destruct (decide (n_id n = nid)) as [E|E]; simpl.
  - by rewrite decide_True.
  - by rewrite decide_False.
Qed.

Lemma update_set_read_same nid (l : list Notification) :
  Forall2 same_but_read l (update_eq n_id nid set_read l).
Proof.
  apply Forall2_fmap_self. intros n. case_decide; repeat split.
Qed.

Lemma update_set_read_marks nid (l : list Notification) :
  Forall (λ n, n_id n = nid → is_read n = true) (update_eq n_id nid set_read l).
Proof.
  unfold update_eq. apply Forall_fmap, Forall_forall. intros n _. simpl.
  case_decide; [done|]. intros ?. done.
Qed.

(** C8. Marking a notification as read a second time, whatever the store
    answers the second time, leaves the state that the first marking left;
    with the store answering as before, the second call ends exactly as the
    first, with the same "Notification Marked as Read" and no error.  The
    marking changes no field of any notification but the read flag, and after
    it every notification of that id is read. *)
Theorem markAsRead_idempotent (reply : Reply) (notificationId : string) (st : State) :
  (markAsRead reply notificationId (markAsRead Done notificationId st).1).1
    = (markAsRead Done notificationId st).1 ∧
  markAsRead Done notificationId (markAsRead Done notificationId st).1
    = markAsRead Done notificationId st ∧
  (markAsRead Done notificationId st).2 = Some marked_as_read ∧
  Forall2 same_but_read (table st) (table (markAsRead Done notificationId st).1) ∧
  Forall2 same_but_read (shown st) (shown (markAsRead Done notificationId st).1) ∧
  Forall (λ n, n_id n = notificationId → is_read n = true)
    (shown (markAsRead Done notificationId st).1).
Proof.
  simpl. repeat split.
  - destruct reply; simpl; by rewrite ?update_set_read_idemp.
  - by rewrite !update_set_read_idemp.
  - apply update_set_read_same.
  - apply update_set_read_same.
  - apply update_set_read_marks.
Qed.

(** With one and the same answer of the store to both calls, two markings end
    as one does. *)
Lemma markAsRead_twice (reply : Reply) (notificationId : string) (st : State) :
  markAsRead reply notificationId (markAsRead reply notificationId st).1
    = markAsRead reply notificationId st.
Proof. destruct reply; simpl; by rewrite ?update_set_read_idemp. Qed.

(** A notification that is already read, in the store and in the list: marking
    it changes nothing and is answered as any marking is. *)
Lemma markAsRead_already_read (notificationId : string) (st : State) :
  Forall (λ n, n_id n = notificationId → is_read n = true) (table st ++ shown st) →
  markAsRead Done notificationId st = (st, Some marked_as_read).
Proof.
  intros Hread. apply Forall_app in Hread as [Ht Hs].
  assert (∀ l, Forall (λ n, n_id n = notificationId → is_read n = true) l →
               update_eq n_id notificationId set_read l = l) as Hsame.
  { intros l Hl. unfold update_eq. rewrite <- (list_fmap_id l) at 2.
    apply Forall_fmap_ext. eapply Forall_impl; [exact Hl|].
    intros n Hn. simpl.
    destruct (decide (n_id n = notificationId)) as [Hid|]; [|done].
    destruct n as [? ? ? ? ? r ?]. simpl in *. by rewrite (Hn Hid). }
  simpl. rewrite (Hsame _ Ht), (Hsame _ Hs). by destruct st.
Qed.

Lemma mock_newest_first now : StronglySorted newer (getMockNotifications now).
Proof.
  unfold getMockNotifications, newer.
  repeat (constructor; [|repeat constructor; simpl; lia]). constructor.
Qed.

(** C9 (amended). When the store answers the query, the list presented for a
    user is a rearrangement of exactly the stored notifications of that user,
    ordered newest first by creation instant.  When the query is refused or
    rejects, the list presented is not the user's: it is the three built-in
    mock notifications, with ids 1, 2 and 3 and no user, created at the
    current instant, a day and two days before it, so newest first as well.
    Loading changes nothing in the store. *)
Theorem fetchNotifications_newest_first (reply : Reply) (now : Z)
    (userId : string) (st : State) :
  shown (fetchNotifications Done now userId st)
    ≡ₚ filter (λ n, n_user_id n = Some userId) (table st) ∧
  (∀ n, n ∈ shown (fetchNotifications Done now userId st) ↔
        n ∈ table st ∧ n_user_id n = Some userId) ∧
  (∀ message,
     shown (fetchNotifications (Refused message) now userId st)
       = getMockNotifications now) ∧
  shown (fetchNotifications Thrown now userId st) = getMockNotifications now ∧
  n_id <$> getMockNotifications now = ["1"; "2"; "3"] ∧
  n_user_id <$> getMockNotifications now = [None; None; None] ∧
  n_created_at <$> getMockNotifications now
    = [now; now - 86400000; now - 172800000] ∧
  table (fetchNotifications reply now userId st) = table st ∧
  StronglySorted newer (shown (fetchNotifications reply now userId st)).
Proof.
  split; [|split; [|split; [|split; [|split; [|split; [|split; [|split]]]]]]];
    try reflexivity.
  - simpl. unfold select_for_user. apply merge_sort_Permutation.
  - intros n. simpl. unfold select_for_user.
    rewrite merge_sort_Permutation, list_elem_of_filter. tauto.
  - by destruct reply.
  - destruct reply; simpl; try apply mock_newest_first.
    unfold select_for_user. apply (StronglySorted_merge_sort newer).
Qed.

End NotificationFacts.

Section NotificationScenarios.
Import Supabase NotificationSystem Scenario.
Local Open Scope Z_scope.

Example fetch_u1 :
  n_id <$> shown (fetchNotifications Done 0 "u1" (mkState notes_table []))
    = ["n3"; "n4"; "n1"].
Proof. vm_compute. reflexivity. Qed.

(** C9 as stated fails.  The store refuses the query for u1 (the table is
    missing, say): the list presented holds the three mock notifications, none
    of them of u1, and none of the three notifications stored for u1. *)
Lemma fetch_refused_shows_mock_notifications :
  let st := fetchNotifications (Refused "relation notifications does not exist")
              1000 "u1" (mkState notes_table []) in
  n_id <$> shown st = ["1"; "2"; "3"] ∧
  n_user_id <$> shown st = [None; None; None] ∧
  n_id <$> filter (λ n, n_user_id n = Some "u1") notes_table = ["n1"; "n3"; "n4"] ∧
  ¬ Forall (λ n, n ∈ notes_table ∧ n_user_id n = Some "u1") (shown st).
Proof.
  cbv zeta. split; [reflexivity|]. split; [reflexivity|]. split; [reflexivity|].
  simpl. intros Hall. apply Forall_cons in Hall as [[_ Huser] _]. discriminate Huser.
Qed.

Example markAsRead_n1_twice :
  let st := fetchNotifications Done 0 "u1" (mkState notes_table []) in
  let once := (markAsRead Done "n1" st).1 in
  is_read <$> shown once = [true; false; true] ∧
  (markAsRead Done "n1" once).1 = once ∧
  (markAsRead Done "n3" st).1 = st.
Proof. vm_compute. repeat split. Qed.

End NotificationScenarios.

(** ** Inventory *)

Section InventoryFacts.
Import HospitalDashboard.
Local Open Scope Z_scope.

(** One quick update, with any change, keeps every counter at 0 or above. *)
Lemma handleQuickUpdate_nonnegative t change st :
  nonnegative st → nonnegative (handleQuickUpdate t change st).1.
Proof.
  unfold nonnegative. simpl. intros Hst.
  apply Forall_fmap. eapply Forall_impl; [exact Hst|].
  intros blood Hb. simpl in *. case_decide; simpl; lia.
Qed.

(** Any run of presses of the plus and minus buttons keeps every counter at 0
    or above. *)
Lemma quickUpdates_nonnegative presses st :
  nonnegative st → nonnegative (quickUpdates presses st).
Proof.
  revert st. induction presses as [|[t a] rest IH]; intros st Hst; simpl; [done|].
  apply IH. by apply handleQuickUpdate_nonnegative.
Qed.


End InventoryFacts.

Section InventoryScenarios.
Import HospitalDashboard.
Local Open Scope Z_scope.


(** C6 at its failing input: an inventory with A+ at 10; the edit field of A+
    is opened, -5 is typed into it, and Save is pressed.  The counter of A+ is
    then -5. *)
Lemma handleEditSave_stores_negative :
  let st0 := mkState [mkBloodType "A+" 10; mkBloodType "O-" 4] None 0 in
  let st1 := handleEditStart "A+" 10 st0 in
  let st2 := onTempValueChange (Some (-5)) st1 in
  let st3 := (handleEditSave "A+" st2).1 in
  bloodInventory st3 = [mkBloodType "A+" (-5); mkBloodType "O-" 4] ∧
  (handleEditSave "A+" st2).2
    = mkToast "Blood Inventory Updated" "A+ blood units updated to -5" false ∧
  nonnegative st0 ∧ ¬ nonnegative st3.
Proof.
  cbv zeta. split; [reflexivity|]. split; [reflexivity|]. split.
  - unfold nonnegative. simpl. repeat constructor; simpl; lia.
  - unfold nonnegative. simpl. intros Hn.
    inversion Hn as [|?? Hneg _]. simpl in Hneg. lia.
Qed.

Example quickUpdates_run :
  bloodInventory
    (quickUpdates [("O+", Minus); ("O+", Minus); ("A+", Plus); ("O+", Plus)]
       (mkState [mkBloodType "O+" 1; mkBloodType "A+" 7] None 0))
    = [mkBloodType "O+" 1; mkBloodType "A+" 8].
Proof. reflexivity. Qed.

End InventoryScenarios.

(** * Further properties of the handlers *)

(** ** Sorting and maps that keep the sort key *)

Section MergeSortFmap.
Context {A : Type} (R : relation A) `{!∀ x y, Decision (R x y)}.
Context (f : A → A) (Hf : ∀ x y, R (f x) (f y) ↔ R x y).

Local Abbreviation on_stack :=
  (fmap (M:=list) (fmap (M:=option) (fmap (M:=list) f))).

Lemma list_merge_fmap (l1 l2 : list A) :
  list_merge R (f <$> l1) (f <$> l2) = f <$> list_merge R l1 l2.
Proof.
  revert l2. induction l1 as [|x1 l1 IH1]; intros l2; [by destruct l2|].
  induction l2 as [|x2 l2 IH2]; [done|].
  rewrite !fmap_cons, !list_merge_cons.
  rewrite (decide_ext (R (f x1) (f x2)) (R x1 x2)) by apply Hf.
  destruct (decide (R x1 x2)); rewrite fmap_cons; f_equal.
  - rewrite <- (IH1 (x2 :: l2)). by rewrite fmap_cons.
  - rewrite <- IH2. by rewrite fmap_cons.
Qed.

Lemma merge_list_to_stack_fmap (st : list (option (list A))) (l : list A) :
  merge_list_to_stack R (on_stack st) (f <$> l)
    = on_stack (merge_list_to_stack R st l).
Proof.
  revert l. induction st as [|[l'|] st IH]; intros l; [reflexivity| |reflexivity].
  change (None :: merge_list_to_stack R (on_stack st)
                    (list_merge R (f <$> l') (f <$> l))
          = None :: on_stack (merge_list_to_stack R st (list_merge R l' l))).
  by rewrite list_merge_fmap, IH.
Qed.

Lemma merge_stack_fmap (st : list (option (list A))) :
  merge_stack R (on_stack st) = f <$> merge_stack R st.
Proof.
  induction st as [|[l|] st IH]; [reflexivity| |exact IH].
  change (list_merge R (f <$> l) (merge_stack R (on_stack st))
          = f <$> list_merge R l (merge_stack R st)).
  rewrite IH. apply list_merge_fmap.
Qed.

Lemma merge_sort_aux_fmap (st : list (option (list A))) (l : list A) :
  merge_sort_aux R (on_stack st) (f <$> l) = f <$> merge_sort_aux R st l.
Proof.
  revert st. induction l as [|x l IH]; intros st.
  - apply merge_stack_fmap.
  - change (merge_sort_aux R (merge_list_to_stack R (on_stack st) (f <$> [x]))
              (f <$> l)
            = f <$> merge_sort_aux R (merge_list_to_stack R st [x]) l).
    rewrite merge_list_to_stack_fmap. apply IH.
Qed.

(** Sorting commutes with a map that keeps the order of the keys. *)
Lemma merge_sort_fmap (l : list A) :
  merge_sort R (f <$> l) = f <$> merge_sort R l.
Proof. apply (merge_sort_aux_fmap [] l). Qed.

End MergeSortFmap.

Lemma filter_fmap_keep {A} (P : A → Prop) `{!∀ x, Decision (P x)} (f : A → A)
    (l : list A) :
  (∀ x, P (f x) ↔ P x) → filter P (f <$> l) = f <$> filter P l.
Proof.
  intros HP. induction l as [|x l IH]; [done|].
  rewrite fmap_cons, !filter_cons, IH.
  rewrite (decide_ext (P (f x)) (P x)) by apply HP.
  by destruct (decide (P x)).
Qed.

(** ** The notification list: badge, deleting, and reloading *)

Section NotificationListFacts.
Import Supabase NotificationSystem.
Local Open Scope Z_scope.

(** Loading the rows of a user commutes with a rewrite of the rows that keeps
    their user and their creation instant. *)
Lemma select_for_user_fmap (g : Notification → Notification) userId t :
  (∀ n, n_user_id (g n) = n_user_id n) →
  (∀ n, n_created_at (g n) = n_created_at n) →
  select_for_user userId (g <$> t) = g <$> select_for_user userId t.
Proof.
  intros Hu Hc. unfold select_for_user.
  rewrite (filter_fmap_keep (λ n, n_user_id n = Some userId) g)
    by (intros n; by rewrite Hu).
  apply (merge_sort_fmap newer g). intros x y. unfold newer. by rewrite !Hc.
Qed.

(** X1. A reload after a marking that the store carried out shows exactly the
    list the component already shows: the local marking and the stored one
    agree.  After a marking that the store refused, a reload brings back the
    list as it was loaded: the marking is lost. *)
Theorem markAsRead_agrees_with_reload (now : Z) (userId notificationId message : string)
    (st0 : State) :
  fetchNotifications Done now userId
      (markAsRead Done notificationId (fetchNotifications Done now userId st0)).1
    = (markAsRead Done notificationId (fetchNotifications Done now userId st0)).1 ∧
  fetchNotifications Done now userId
      (markAsRead (Refused message) notificationId
         (fetchNotifications Done now userId st0)).1
    = fetchNotifications Done now userId st0.
Proof.
  split; [|reflexivity].
  simpl. f_equal. unfold update_eq.
  apply select_for_user_fmap; intros n; by case_decide.
Qed.

Lemma unreadCount_set_read_fmap (l : list Notification) :
  unreadCount (set_read <$> l) = 0%nat.
Proof.
  unfold unreadCount. induction l as [|n l IH]; [done|].
  rewrite fmap_cons, filter_cons_False by (simpl; discriminate). exact IH.
Qed.

(** X2. "Mark All Read", when the call does not reject, leaves no unread
    notification in the list (the badge and the button disappear), changes
    nothing but read flags, and in the store leaves the rows of every other
    user exactly as they were. *)
Theorem markAllAsRead_clears_badge (reply : Reply) (donorId : option string)
    (st : State) :
  reply ≠ Thrown →
  unreadCount (shown (markAllAsRead reply donorId st).1) = 0%nat ∧
  Forall2 same_but_read (shown st) (shown (markAllAsRead reply donorId st).1) ∧
  Forall2 (λ a b, same_but_read a b ∧ (n_user_id a ≠ donorId → b = a))
    (table st) (table (markAllAsRead reply donorId st).1).
Proof.
  intros Hr.
  assert (Forall2 same_but_read (shown st) (set_read <$> shown st)) as Hshown
    by (apply Forall2_fmap_self; intros n; repeat split).
  assert (Forall2 (λ a b, same_but_read a b ∧ (n_user_id a ≠ donorId → b = a))
            (table st) (table st)) as Hsame.
  { rewrite <- (list_fmap_id (table st)) at 2.
    apply Forall2_fmap_self. intros n. repeat split. }
  unfold markAllAsRead.
  destruct donorId as [[|c user]|]; [| |];
    try (simpl; split; [apply unreadCount_set_read_fmap|by split]).
  destruct reply; [|simpl; split; [apply unreadCount_set_read_fmap|by split]|done].
  simpl. split; [apply unreadCount_set_read_fmap|]. split; [done|].
  apply Forall2_fmap_self. intros n.
  case_decide; [repeat split; by intros []|repeat split].
Qed.

(** X3. Deleting a notification, when the call does not reject, leaves in the
    list exactly the notifications of other ids, in their old order; the
    badge count does not grow; and deleting the same id again changes
    nothing more. *)
Theorem deleteNotification_removes (reply : Reply) (notificationId : string)
    (st : State) :
  reply ≠ Thrown →
  (∀ n, n ∈ shown (deleteNotification reply notificationId st).1 ↔
        n ∈ shown st ∧ n_id n ≠ notificationId) ∧
  shown (deleteNotification reply notificationId st).1 `sublist_of` shown st ∧
  (unreadCount (shown (deleteNotification reply notificationId st).1)
     ≤ unreadCount (shown st))%nat ∧
  (deleteNotification reply notificationId
     (deleteNotification reply notificationId st).1).1
    = (deleteNotification reply notificationId st).1.
Proof.
  intros Hr.
  assert (∀ l : list Notification,
            filter (λ n, n_id n ≠ notificationId)
              (filter (λ n, n_id n ≠ notificationId) l)
            = filter (λ n, n_id n ≠ notificationId) l) as Hidem
    by (intros l; by apply list_filter_filter_l).
  assert (shown (deleteNotification reply notificationId st).1
          = filter (λ n, n_id n ≠ notificationId) (shown st)) as ->
    by (by destruct reply).
  split; [|split; [|split]].
  - intros n. rewrite list_elem_of_filter. tauto.
  - apply sublist_filter.
  - unfold unreadCount. rewrite list_filter_filter.
    rewrite <- (list_filter_filter_l (λ n, is_read n = false ∧ n_id n ≠ notificationId)
                  (λ n, is_read n = false) (shown st)) by tauto.
    apply length_filter.
  - destruct reply; [| |done]; simpl; by rewrite ?Hidem.
Qed.

Lemma update_set_read_other notificationId (l : list Notification) :
  notificationId ∉ n_id <$> l →
  update_eq n_id notificationId set_read l = l.
Proof.
  intros Hno. unfold update_eq. rewrite <- (list_fmap_id l) at 2.
  apply list_fmap_ext. intros i n Hn. simpl.
  case_decide as Hid; [|done]. destruct Hno.
  rewrite <- Hid. apply list_elem_of_fmap_2. by eapply list_elem_of_lookup_2.
Qed.

(** X4. When the ids in the list are distinct, marking an unread notification
    of the list lowers the badge count by exactly one. *)
Theorem markAsRead_lowers_badge (reply : Reply) (st : State) (n : Notification) :
  reply ≠ Thrown →
  NoDup (n_id <$> shown st) →
  n ∈ shown st →
  is_read n = false →
  (unreadCount (shown (markAsRead reply (n_id n) st).1) + 1
     = unreadCount (shown st))%nat.
Proof.
  intros Hr Hnd Hin Hunread.
  assert (shown (markAsRead reply (n_id n) st).1
          = update_eq n_id (n_id n) set_read (shown st)) as ->
    by (by destruct reply).
  induction (shown st) as [|m l IH]; [by apply elem_of_nil in Hin|].
  rewrite fmap_cons in Hnd. apply NoDup_cons in Hnd as [Hm Hnd].
  unfold unreadCount, update_eq in *. rewrite fmap_cons.
  apply elem_of_cons in Hin as [<-|Hin].
  - rewrite decide_True by done.
    rewrite filter_cons_False by (simpl; discriminate).
    rewrite filter_cons_True by done.
    fold (update_eq n_id (n_id n) set_read l).
    rewrite update_set_read_other by done. simpl. lia.
  - assert (n_id m ≠ n_id n) as Hne.
    { intros E. apply Hm. rewrite E. by apply list_elem_of_fmap_2. }
    rewrite decide_False by done. rewrite !filter_cons.
    specialize (IH Hnd Hin). destruct (decide (is_read m = false)); simpl; lia.
Qed.

End NotificationListFacts.

(** ** The inventory: totals, round trips, and saving an edit *)

Section InventoryTotals.
Import HospitalDashboard.
Local Open Scope Z_scope.

Lemma foldl_units_shift (l : list BloodType) (z : Z) :
  foldl (λ total blood, total + units blood) z l
    = z + foldl (λ total blood, total + units blood) 0 l.
Proof.
  revert z. induction l as [|b l IH]; intros z; simpl; [lia|].
  rewrite (IH (z + units b)), (IH (0 + units b)). lia.
Qed.

Lemma getTotalUnits_cons b l e v :
  getTotalUnits (mkState (b :: l) e v) = units b + getTotalUnits (mkState l e v).
Proof. unfold getTotalUnits. simpl. rewrite foldl_units_shift. lia. Qed.

Lemma handleQuickUpdate_types t change st :
  type <$> bloodInventory (handleQuickUpdate t change st).1
    = type <$> bloodInventory st.
Proof.
  simpl. rewrite <- list_fmap_compose. apply list_fmap_ext.
  intros _ b _. simpl. by case_decide.
Qed.

Lemma handleQuickUpdate_other_entries t t' change st :
  t' ≠ t →
  entries_of t' (handleQuickUpdate t change st).1 = entries_of t' st.
Proof.
  intros Hne. unfold entries_of. simpl.
  induction (bloodInventory st) as [|b l IH]; [done|].
  rewrite fmap_cons, !filter_cons, IH.
  destruct (decide (type b = t)) as [E|E]; simpl; [|done].
  rewrite !decide_False by congruence. done.
Qed.

(** X5. Any run of presses of the plus and minus buttons, on an inventory
    without negative counters, leaves an inventory without negative counters,
    with the same blood groups in the same order, and with the entries of
    every blood group that was not pressed exactly as they were. *)
Theorem quickUpdates_keep_inventory_sound (presses : list (string * Adjust))
    (st : State) :
  nonnegative st →
  nonnegative (quickUpdates presses st) ∧
  type <$> bloodInventory (quickUpdates presses st) = type <$> bloodInventory st ∧
  (∀ t, t ∉ presses.*1 → entries_of t (quickUpdates presses st) = entries_of t st).
Proof.
  intros Hnn. split; [by apply quickUpdates_nonnegative|]. clear Hnn.
  revert st. induction presses as [|[t a] rest IH]; intros st; [done|].
  change (quickUpdates ((t, a) :: rest) st)
    with (quickUpdates rest (handleQuickUpdate t (change_of a) st).1).
  destruct (IH (handleQuickUpdate t (change_of a) st).1) as [IHt IHe].
  split.
  - rewrite IHt. apply handleQuickUpdate_types.
  - intros t' Hout. rewrite fmap_cons in Hout.
    apply not_elem_of_cons in Hout as [Hne Hout].
    rewrite (IHe t' Hout). by apply handleQuickUpdate_other_entries.
Qed.

(** X6. On an inventory of safe integers without negative counters, the plus
    button raises the total by one for each entry of its blood group, and the
    minus button lowers it by one for each entry of its blood group that is
    above 0. *)
Theorem quick_update_moves_total (t : string) (st : State) :
  nonnegative st →
  safe st →
  getTotalUnits (handleQuickUpdate t (change_of Plus) st).1
    = getTotalUnits st + Z.of_nat (length (entries_of t st)) ∧
  getTotalUnits (handleQuickUpdate t (change_of Minus) st).1
    = getTotalUnits st
      - Z.of_nat (length (filter (λ blood, 0 < units blood) (entries_of t st))).
Proof.
  intros Hnn _. revert Hnn.
  destruct st as [inv e v]. unfold nonnegative, entries_of. simpl.
  induction inv as [|b inv IH]; intros Hnn; [done|].
  apply Forall_cons in Hnn as [Hb Hnn]. specialize (IH Hnn) as [IHp IHm].
  rewrite !fmap_cons, !getTotalUnits_cons, filter_cons.
  unfold handleQuickUpdate in IHp, IHm. simpl in IHp, IHm. rewrite IHp, IHm.
  destruct (decide (type b = t)); simpl.
  - rewrite filter_cons. destruct (decide (0 < units b)); simpl length; lia.
  - lia.
Qed.

(** X7. On an inventory of safe integers without negative counters, pressing
    plus and then minus on a blood group gives the inventory back. *)
Theorem plus_then_minus_restores (t : string) (st : State) :
  nonnegative st →
  safe st →
  bloodInventory
    (handleQuickUpdate t (change_of Minus)
       (handleQuickUpdate t (change_of Plus) st).1).1
    = bloodInventory st.
Proof.
  unfold nonnegative. simpl. intros Hnn _.
  rewrite <- list_fmap_compose. rewrite <- (list_fmap_id (bloodInventory st)) at 2.
  apply Forall_fmap_ext. eapply Forall_impl; [exact Hnn|].
  intros [ty u] Hu. simpl in *.
  destruct (decide (ty = t)) as [->|Hne]; simpl.
  - rewrite decide_True by done. simpl. f_equal. lia.
  - by rewrite decide_False.
Qed.

(** X8. Saving an edit on an inventory without negative counters keeps it so
    exactly when the saved value is not negative or the inventory has no
    entry of the edited blood group. *)
Theorem handleEditSave_nonnegative_iff (t : string) (st : State) :
  nonnegative st →
  nonnegative (handleEditSave t st).1 ↔ 0 ≤ tempValue st ∨ entries_of t st = [].
Proof.
  destruct st as [inv e v]. unfold nonnegative, entries_of. simpl. intros Hnn.
  induction inv as [|b inv IH]; simpl.
  - split; [by right|constructor].
  - apply Forall_cons in Hnn as [Hb Hnn]. specialize (IH Hnn).
    rewrite Forall_cons, IH, filter_cons.
    destruct (decide (type b = t)); simpl.
    + split; [intros [? _]; by left|intros [?|?]; [split; [done|by left]|done]].
    + split; [tauto|]. intros H. split; [done|tauto].
Qed.

(** X9. When every blood group has one entry, opening the edit field of an
    entry (with its current count, as the edit button does) and saving it
    unchanged gives the inventory back and closes the field. *)
Theorem edit_without_change_restores (blood : BloodType) (st : State) :
  NoDup (type <$> bloodInventory st) →
  blood ∈ bloodInventory st →
  bloodInventory
    (handleEditSave (type blood) (handleEditStart (type blood) (units blood) st)).1
    = bloodInventory st ∧
  editingType
    (handleEditSave (type blood) (handleEditStart (type blood) (units blood) st)).1
    = None.
Proof.
  intros Hnd Hin. split; [|done]. simpl.
  rewrite <- (list_fmap_id (bloodInventory st)) at 2.
  apply list_fmap_ext. intros i b Hb. simpl.
  case_decide as Ht; [|done].
  assert (b = blood) as ->; [|by destruct blood].
  apply list_elem_of_lookup_2 in Hb.
  apply list_elem_of_lookup_1 in Hin as [j Hj].
  apply list_elem_of_lookup_1 in Hb as [k Hk].
  assert (k = j) as ->.
  { eapply (NoDup_lookup (type <$> bloodInventory st)); [done| |];
      rewrite list_lookup_fmap; [by rewrite Hk|by rewrite Hj, Ht]. }
  congruence.
Qed.

End InventoryTotals.

(** ** The request list: units, loading, and the buttons *)

Section RequestsListFacts.
Import Supabase RequestsList.
Local Open Scope Z_scope.

(** X10. For quantities up to 2^31 ml the list shows the number of units that
    the request form stored: converting the stored millilitres back gives the
    units entered.  For a stored quantity of that size the units shown are
    the nearest whole number of units, at most 225 ml away, a half unit
    rounding upwards.  What the units field of the form holds after a change
    is never shown as 0 units. *)
Theorem convertMlToUnits_round_trip (unitsRequired ml : Z) :
  exactMl (RequestForm.quantity_ml unitsRequired) →
  exactMl ml →
  convertMlToUnits (RequestForm.quantity_ml unitsRequired) = unitsRequired ∧
  -225 ≤ ml - 450 * convertMlToUnits ml < 225 ∧
  (∀ typed, unitsRequired = RequestForm.onUnitsRequiredChange typed →
            convertMlToUnits (RequestForm.quantity_ml unitsRequired) ≠ 0).
Proof.
  intros _ _.
  assert (∀ u, convertMlToUnits (RequestForm.quantity_ml u) = u) as Hback.
  { intros u. unfold convertMlToUnits, RequestForm.quantity_ml.
    symmetry. apply (Z.div_unique _ _ _ 450); lia. }
  split; [apply Hback|]. split.
  - unfold convertMlToUnits.
    pose proof (Z.div_mod (2 * ml + 450) 900 ltac:(lia)) as Hdm.
    pose proof (Z.mod_pos_bound (2 * ml + 450) 900 ltac:(lia)) as Hb.
    lia.
  - intros typed ->. rewrite Hback. by destruct typed as [[| |]|].
Qed.

Lemma withStatus_status request : status (withStatus request) ≠ "".
Proof. unfold withStatus. case_decide; [discriminate|done]. Qed.

Lemma withStatus_created_at request :
  created_at (withStatus request) = created_at request.
Proof. unfold withStatus. by case_decide. Qed.

(** X11. With a user logged in and the store answering, the list loads
    exactly the requests that user created, each with a status, newest
    first; a request stored without a status is shown as Pending and so gets
    the Accept and Ignore buttons. *)
Theorem fetchRequests_loads_with_status (uid : string) (table : list Stored)
    (prev : list Request) :
  uid ≠ "" →
  (∀ r, r ∈ (fetchRequests (Some uid) Done table prev).1 ↔
        ∃ s, s ∈ table ∧ created_by s = Some uid ∧ r = withStatus (row s)) ∧
  Forall (λ r, status r ≠ "") (fetchRequests (Some uid) Done table prev).1 ∧
  StronglySorted (λ a b, created_at b ≤ created_at a)
    (fetchRequests (Some uid) Done table prev).1 ∧
  (∀ request, status request = "" →
     rowButtons (withStatus request) = [Accepted; Ignored]).
Proof.
  intros Huid.
  assert ((fetchRequests (Some uid) Done table prev).1
          = withStatus <$>
              (row <$> merge_sort newer (filter (λ s, created_by s = Some uid) table)))
    as -> by (by destruct uid).
  split; [|split; [|split]].
  - intros r. rewrite list_elem_of_fmap. split.
    + intros (r0 & -> & Hr0). apply list_elem_of_fmap in Hr0 as (s & -> & Hs).
      rewrite merge_sort_Permutation in Hs.
      apply list_elem_of_filter in Hs as [Hc Hs]. eauto.
    + intros (s & Hs & Hc & ->). exists (row s). split; [done|].
      apply list_elem_of_fmap_2. rewrite merge_sort_Permutation.
      by apply list_elem_of_filter.
  - apply Forall_fmap, Forall_forall. intros r _. apply withStatus_status.
  - rewrite <- list_fmap_compose.
    assert (StronglySorted newer
              (merge_sort newer (filter (λ s, created_by s = Some uid) table)))
      as Hsorted.
    { apply StronglySorted_merge_sort.
      - intros a b c. unfold newer. lia.
      - intros a b. unfold newer. lia. }
    induction Hsorted as [|s l Hs IH Hall]; [constructor|].
    rewrite fmap_cons. constructor; [exact IH|].
    apply Forall_fmap. eapply Forall_impl; [exact Hall|].
    intros s' Hnew. simpl. rewrite !withStatus_created_at. exact Hnew.
  - intros request Hs. unfold withStatus. rewrite decide_True by done.
    reflexivity.
Qed.

Lemma filter_update_other (rid x s : string) (l : list Request) :
  x ≠ rid →
  filter (λ r, id r = rid) (update_eq id x (set_status s) l)
    = filter (λ r, id r = rid) l.
Proof.
  intros Hne. unfold update_eq. induction l as [|r l IH]; [done|].
  rewrite fmap_cons, !filter_cons, IH.
  destruct (decide (id r = x)) as [Hx|Hx].
  - rewrite !decide_False; [done|congruence|simpl; congruence].
  - done.
Qed.

Lemma press_leaves_resolved reply i s d prev rid :
  Forall (λ r, id r = rid → status r ≠ "Pending") prev →
  filter (λ r, id r = rid) (press reply i s d prev).2
    = filter (λ r, id r = rid) prev ∧
  filter (λ r, id r = rid) (requests (press reply i s d prev).1)
    = filter (λ r, id r = rid) (requests d).
Proof.
  intros Hres. unfold press.
  destruct (prev !! i) as [request|] eqn:Hi; [|done].
  case_decide as Hbtn; [|done].
  assert (status request = "Pending") as Hp.
  { unfold rowButtons in Hbtn. case_decide; [done|]. by apply elem_of_nil in Hbtn. }
  assert (id request ≠ rid) as Hne.
  { intros E. rewrite Forall_forall in Hres.
    by apply (Hres request (list_elem_of_lookup_2 _ _ _ Hi) E). }
  destruct reply; simpl; auto using filter_update_other.
Qed.

(** X12. A request that the list shows with a status other than Pending is
    out of reach of the list's buttons: after any run of presses, the rows of
    that request, in the list and in the store, are what they were. *)
Theorem presses_leave_resolved_rows (run : list (Reply * nat * NewStatus))
    (d : Db) (prev : list Request) (rid : string) :
  Forall (λ r, id r = rid → status r ≠ "Pending") prev →
  filter (λ r, id r = rid) (presses run d prev).2
    = filter (λ r, id r = rid) prev ∧
  filter (λ r, id r = rid) (requests (presses run d prev).1)
    = filter (λ r, id r = rid) (requests d).
Proof.
  revert d prev. induction run as [|[[reply i] s] run IH]; intros d prev Hres; [done|].
  simpl. destruct (press_leaves_resolved reply i s d prev rid Hres) as [Hl Hd].
  destruct (press reply i s d prev) as [d' prev'] eqn:Hp. simpl in Hl, Hd.
  assert (Forall (λ r, id r = rid → status r ≠ "Pending") prev') as Hres'.
  { apply Forall_forall. intros r Hr Hid.
    assert (r ∈ filter (λ r, id r = rid) prev') as Hin
      by (apply list_elem_of_filter; done).
    rewrite Hl in Hin. apply list_elem_of_filter in Hin as [_ Hin].
    rewrite Forall_forall in Hres. by apply Hres. }
  destruct (IH d' prev' Hres') as [IHl IHd]. split; congruence.
Qed.

End RequestsListFacts.

(** ** The donor's card: what the handlers touch, and how they compose *)

Section DonorRequestCardComposition.
Import Supabase DonorRequestCard.
Local Open Scope Z_scope.

Lemma update_eq_ids (x : string) (f : Request → Request) (l : list Request) :
  (∀ r, id (f r) = id r) → id <$> update_eq id x f l = id <$> l.
Proof.
  intros Hf. unfold update_eq. rewrite <- list_fmap_compose.
  apply list_fmap_ext. intros _ r _. simpl. case_decide; [apply Hf|done].
Qed.

(** X13. Neither handler of the card removes or rewrites what is in the
    appointment, notification or profile tables, and neither adds or drops a
    request: an accept at most appends one appointment and one notification,
    an ignore leaves the three tables as they are. *)
Theorem card_handlers_only_append (env : Env) (request : Request) (d : Db) :
  (appointments d `prefix_of` appointments (db (handleAccept env request d)) ∧
   (length (appointments (db (handleAccept env request d)))
      ≤ S (length (appointments d)))%nat ∧
   notifications d `prefix_of` notifications (db (handleAccept env request d)) ∧
   (length (notifications (db (handleAccept env request d)))
      ≤ S (length (notifications d)))%nat ∧
   profiles (db (handleAccept env request d)) = profiles d ∧
   id <$> requests (db (handleAccept env request d)) = id <$> requests d) ∧
  (appointments (db (handleIgnore env request d)) = appointments d ∧
   notifications (db (handleIgnore env request d)) = notifications d ∧
   profiles (db (handleIgnore env request d)) = profiles d ∧
   id <$> requests (db (handleIgnore env request d)) = id <$> requests d).
Proof.
  assert (∀ {X} (l : list X) x, l `prefix_of` l ++ [x]) as Hpre
    by (intros; by apply prefix_app_r).
  assert (∀ {X} (l : list X) x, (length (l ++ [x]) ≤ S (length l))%nat) as Hlen
    by (intros; rewrite length_app; simpl; lia).
  split.
  - unfold handleAccept.
    destruct (donor_of env) as [donor|]; [|by repeat split; auto].
    destruct (reply_update env); [|by repeat split; auto..].
    destruct (reply_appointment env), (reply_notification env); simpl;
      unfold insert; repeat split;
      auto using update_eq_ids; try apply Hpre; try apply Hlen; lia.
  - unfold handleIgnore.
    destruct (donor_of env) as [donor|]; [|by repeat split].
    destruct (reply_update env); simpl; repeat split; auto using update_eq_ids.
Qed.

(** X14. Without a logged-in donor, or when the store does not carry out the
    update of the request, accept and ignore leave the store exactly as it
    was, show a destructive toast and do not ask for a reload; a refusal of
    the store is shown with the store's own message. *)
Theorem card_handlers_fail_closed (env : Env) (request : Request) (d : Db) :
  donor_of env = None ∨ reply_update env ≠ Done →
  (db (handleAccept env request d) = d ∧
   destructive (toast (handleAccept env request d)) = true ∧
   reloaded (handleAccept env request d) = false) ∧
  (db (handleIgnore env request d) = d ∧
   destructive (toast (handleIgnore env request d)) = true ∧
   reloaded (handleIgnore env request d) = false) ∧
  (∀ message, donor_of env ≠ None → reply_update env = Refused message →
     description (toast (handleAccept env request d)) = message ∧
     description (toast (handleIgnore env request d)) = message).
Proof.
  intros Hfail. unfold handleAccept, handleIgnore.
  destruct (donor_of env) as [donor|] eqn:Hd.
  - destruct Hfail as [|Hfail]; [done|].
    destruct (reply_update env) as [|m|] eqn:Hu; [done| |].
    + split; [done|]. split; [done|]. intros m' _ [= <-]. done.
    + split; [done|]. split; [done|]. intros m' _ ?. discriminate.
  - split; [done|]. split; [done|]. intros m' Hne. done.
Qed.

Lemma handleIgnore_keeps_appointments env request d :
  appointments (db (handleIgnore env request d)) = appointments d.
Proof.
  unfold handleIgnore. destruct (donor_of env); [|done].
  by destruct (reply_update env).
Qed.

(** X15. An ignore after an accept does not withdraw the appointment: when an
    accept ran to its end with its appointment stored, and a donor then
    ignores the same request, the request is ignored and names the ignoring
    donor, while the appointment scheduled for the accepting donor is still in
    the store. *)
Theorem ignore_after_accept_keeps_appointment (accepting ignoring : Env)
    (request : Request) (d : Db) (donor1 donor2 : string) :
  donor_of accepting = Some donor1 →
  carried_out accepting = true →
  appointment_inserted accepting = true →
  donor_of ignoring = Some donor2 →
  reply_update ignoring = Done →
  accept_appointment accepting request donor1
    ∈ appointments (db (handleIgnore ignoring request
                          (db (handleAccept accepting request d)))) ∧
  Forall (λ r, id r = id request → status r = "ignored" ∧ donor_id r = Some donor2)
    (requests (db (handleIgnore ignoring request
                     (db (handleAccept accepting request d))))).
Proof.
  intros Hd1 Hc Ha Hd2 Hu.
  split.
  - rewrite handleIgnore_keeps_appointments. unfold handleAccept, carried_out, appointment_inserted in *.
    rewrite Hd1 in *. destruct (reply_update accepting); try discriminate.
    destruct (reply_appointment accepting); try discriminate.
    destruct (reply_notification accepting); try discriminate; simpl;
      unfold insert; apply elem_of_app; right; apply list_elem_of_here.
  - unfold handleIgnore. rewrite Hd2, Hu. simpl.
    unfold update_eq. apply Forall_fmap, Forall_forall. intros r _. simpl.
    case_decide; [done|]. intros ?. done.
Qed.

Lemma handleAccept_appointments_count env request d :
  carried_out env = true →
  length (appointments (db (handleAccept env request d)))
    = (length (appointments d) + (if appointment_inserted env then 1 else 0))%nat.
Proof.
  unfold carried_out, appointment_inserted, handleAccept.
  destruct (donor_of env) as [donor|]; [|discriminate].
  destruct (reply_update env); try discriminate.
  destruct (reply_appointment env), (reply_notification env);
    try discriminate; intros _; simpl; unfold insert;
    rewrite ?length_app; simpl; lia.
Qed.

(** X16. Accepts are not deduplicated: after any run of accept attempts that
    run to their end, the appointment table has grown by one row for every
    attempt whose insert the store carried out, also when the attempts come
    from one donor or follow an accept that already succeeded. *)
Theorem acceptAll_adds_an_appointment_each (envs : list Env) (request : Request)
    (d : Db) :
  forallb carried_out envs = true →
  length (appointments (acceptAll envs request d).1)
    = (length (appointments d) + length (filter (λ e, appointment_inserted e = true) envs))%nat.
Proof.
  revert d. induction envs as [|e envs IH]; intros d Hall; simpl in *; [lia|].
  apply andb_true_iff in Hall as [He Hall].
  specialize (IH (db (handleAccept e request d)) Hall).
  destruct (acceptAll envs request (db (handleAccept e request d))) as [d' ts].
  simpl in *. rewrite IH, (handleAccept_appointments_count e request d He).
  rewrite filter_cons. destruct (appointment_inserted e); simpl; lia.
Qed.

End DonorRequestCardComposition.

(** ** Scheduling: failures half way, and the date input *)

Section AppointmentFormComposition.
Import Supabase AppointmentForm.
Local Open Scope Z_scope.

Local Ltac close_frame :=
  simpl; unfold insert; repeat split; try done; try reflexivity;
  try (by apply prefix_app_r); rewrite ?length_app; simpl; lia.

(** X17. Scheduling is not all-or-nothing: when the appointment (for a date
    that is read) is stored and the update of the request is then refused or
    rejects, the handler reports "Scheduling Failed" and leaves the request
    and the notifications as they were, but the appointment it inserted stays
    in the store. *)
Theorem handleSubmit_failure_keeps_appointment (env : Env) (donor : Donor)
    (rid : string) (formData : AppointmentData) (d : Db)
    (hospital : string) (day minutes : Z) :
  truthy (user env) = Some hospital →
  date formData = Some day →
  time formData = Some minutes →
  hospitalContact formData ≠ "" →
  dateTimeParses day = true →
  rid ≠ "" →
  reply_appointment env = Done →
  reply_request env ≠ Done →
  toast (handleSubmit env donor (Some rid) formData d) = scheduling_failed ∧
  scheduled (handleSubmit env donor (Some rid) formData d) = false ∧
  requests (db (handleSubmit env donor (Some rid) formData d)) = requests d ∧
  notifications (db (handleSubmit env donor (Some rid) formData d)) = notifications d ∧
  appointments (db (handleSubmit env donor (Some rid) formData d))
    = appointments d
        ++ [new_appointment env hospital donor (Some rid) formData day minutes].
Proof.
  intros Hu Hd Ht Hc Hp Hrid Ha Hr. unfold handleSubmit.
  rewrite Hu, Hd, Ht, Hp, Ha. simpl truthy.
  rewrite !(decide_False (P := hospitalContact formData = "")) by done.
  rewrite !(decide_False (P := rid = "")) by done.
  destruct (reply_request env); [by destruct Hr| |]; repeat split.
Qed.

(** X18. A scheduling without a request id changes no request, whatever the
    form holds and whatever the store answers. *)
Theorem handleSubmit_without_request_id (env : Env) (donor : Donor)
    (formData : AppointmentData) (d : Db) :
  requests (db (handleSubmit env donor None formData d)) = requests d ∧
  requests (db (handleSubmit env donor (Some "") formData d)) = requests d.
Proof.
  unfold handleSubmit, sendNotificationToDonor.
  split;
    (destruct (truthy (user env)); [|done];
     destruct (date formData); [|done];
     destruct (time formData); [|done];
     destruct (truthy (Some (hospitalContact formData))); [|done];
     destruct (dateTimeParses _); [|done];
     destruct (reply_appointment env); [|done..];
     destruct (reply_notification env); done).
Qed.

(** X19. The donor's notification is best effort: whether the store carries
    out, refuses or rejects its insert has no effect on the toast, on the
    report of success, or on the requests, appointments and profiles; the
    handler adds at most one notification, and no other handler's. *)
Theorem handleSubmit_notification_best_effort (reply : Reply) (env : Env)
    (donor : Donor) (requestId : option string) (formData : AppointmentData)
    (d : Db) :
  toast (handleSubmit (with_reply_notification reply env) donor requestId formData d)
    = toast (handleSubmit env donor requestId formData d) ∧
  scheduled (handleSubmit (with_reply_notification reply env) donor requestId formData d)
    = scheduled (handleSubmit env donor requestId formData d) ∧
  requests (db (handleSubmit (with_reply_notification reply env) donor requestId formData d))
    = requests (db (handleSubmit env donor requestId formData d)) ∧
  appointments (db (handleSubmit (with_reply_notification reply env) donor requestId formData d))
    = appointments (db (handleSubmit env donor requestId formData d)) ∧
  profiles (db (handleSubmit env donor requestId formData d)) = profiles d ∧
  notifications d `prefix_of` notifications (db (handleSubmit env donor requestId formData d)) ∧
  (length (notifications (db (handleSubmit env donor requestId formData d)))
     ≤ S (length (notifications d)))%nat.
Proof.
  unfold handleSubmit, sendNotificationToDonor, with_reply_notification. simpl.
  destruct (truthy (user env)); [|close_frame].
  destruct (date formData); [|close_frame].
  destruct (time formData); [|close_frame].
  destruct (decide (hospitalContact formData = "")); [close_frame|].
  destruct (dateTimeParses _); [|close_frame].
  destruct (reply_appointment env); [|close_frame..].
  destruct (truthy requestId); [destruct (reply_request env)|];
    destruct reply, (reply_notification env); close_frame.
Qed.

(** X20. The date input counts in UTC days, the user in local days.  With
    local time less than a day from UTC, now and 30 days on, the first day of
    the input is the user's yesterday, today or tomorrow.  East of UTC (or on it) the user's
    today can always be chosen; west of UTC (or on it) the user's yesterday
    never can. *)
Theorem date_input_and_local_day (env : Env) (offset_then now : Z) :
  - msPerDay < utc_offset env < msPerDay →
  - msPerDay < offset_then < msPerDay →
  getMinDate now - 1 ≤ localDay env now ≤ getMinDate now + 1 ∧
  (0 ≤ utc_offset env →
   dateInputInRange env offset_then now (localDay env now) = true) ∧
  (utc_offset env ≤ 0 →
   dateInputInRange env offset_then now (localDay env now - 1) = false).
Proof.
  intros Hoff Hthen. unfold dateInputInRange.
  pose proof (getMaxDate_bounds env offset_then now Hoff Hthen) as Hmax.
  revert Hmax. generalize (getMaxDate env offset_then now). intros max Hmax.
  unfold localDay, getMinDate, msPerDay in *.
  assert (24 * 60 * 60 * 1000 = 86400000) as E by reflexivity.
  rewrite E in *. clear E.
  pose proof (Z.div_mod now 86400000 ltac:(lia)) as H1.
  pose proof (Z.mod_pos_bound now 86400000 ltac:(lia)) as H2.
  pose proof (Z.div_mod (now + utc_offset env) 86400000 ltac:(lia)) as H3.
  pose proof (Z.mod_pos_bound (now + utc_offset env) 86400000 ltac:(lia)) as H4.
  split; [lia|]. split; intros Hs.
  - apply bool_decide_eq_true. lia.
  - apply bool_decide_eq_false. lia.
Qed.

End AppointmentFormComposition.

(** ** Compatibility as an order, and the matches shown *)

Section CompatibilityOrder.
Import Dashboard.

(** The table as the list of its pairs of donor group and patient group. *)
Lemma compatible_pairs (a b : string) :
  compatible a b = true ↔
  (a, b) ∈ [ ("O-", "O-"); ("O-", "O+"); ("O-", "A-"); ("O-", "A+");
             ("O-", "B-"); ("O-", "B+"); ("O-", "AB-"); ("O-", "AB+");
             ("O+", "O+"); ("O+", "A+"); ("O+", "B+"); ("O+", "AB+");
             ("A-", "A-"); ("A-", "A+"); ("A-", "AB-"); ("A-", "AB+");
             ("A+", "A+"); ("A+", "AB+");
             ("B-", "B-"); ("B-", "B+"); ("B-", "AB-"); ("B-", "AB+");
             ("B+", "B+"); ("B+", "AB+");
             ("AB-", "AB-"); ("AB-", "AB+");
             ("AB+", "AB+") ].
Proof.
  split.
  - compat_cases a; simpl; intros Hc;
      [apply bool_decide_eq_true in Hc;
       repeat (apply elem_of_cons in Hc as [->|Hc];
               [repeat first [apply list_elem_of_here | apply list_elem_of_further]|]);
       by apply elem_of_nil in Hc .. | vm_compute in Hc; discriminate].
  - intros Hp.
    repeat (apply elem_of_cons in Hp as [[= -> ->]|Hp]; [vm_compute; reflexivity|]).
    by apply elem_of_nil in Hp.
Qed.

Local Ltac pair_cases H :=
  repeat (apply elem_of_cons in H as [H|H]; [simplify_eq|]);
  try (by apply elem_of_nil in H).

(** X21. "Can give to" is an order on the eight blood groups: every group
    can give to itself (and a string that is none of the eight to nothing),
    two different groups never can give to each other, and if a can give to b
    and b to c then a can give to c. *)
Theorem compatible_is_an_order :
  (∀ a, compatible a a = true ↔ a ∈ bloodGroups) ∧
  (∀ a b, compatible a b = true → compatible b a = true → a = b) ∧
  (∀ a b c, compatible a b = true → compatible b c = true → compatible a c = true).
Proof.
  split; [|split].
  - intros a. split.
    + intros Hc. apply compatible_pairs in Hc. unfold bloodGroups.
      pair_cases Hc; try discriminate;
        repeat first [apply list_elem_of_here | apply list_elem_of_further].
    + unfold bloodGroups. intros Ha.
      repeat (apply elem_of_cons in Ha as [->|Ha]; [vm_compute; reflexivity|]).
      by apply elem_of_nil in Ha.
  - intros a b Hab Hba. apply compatible_pairs in Hab.
    pair_cases Hab; try reflexivity; vm_compute in Hba; discriminate.
  - intros a b c Hab Hbc. apply compatible_pairs in Hab.
    pair_cases Hab; apply compatible_pairs in Hbc;
      pair_cases Hbc; try discriminate; vm_compute; reflexivity.
Qed.

(** X22. For every blood group of a request, the matches shown are at most
    two demo donors, each compatible with the request, the nearer first, and
    no compatible demo donor left out is nearer than one that is shown. *)
Theorem matched_nearest_compatible (blood_group : string) :
  length (matched blood_group) ≤ 2 ∧
  Forall (λ d, d ∈ demoDonors ∧ compatible (blood d) blood_group = true)
    (matched blood_group) ∧
  StronglySorted nearer (matched blood_group) ∧
  (∀ d x, d ∈ demoDonors → compatible (blood d) blood_group = true →
          d ∉ matched blood_group → x ∈ matched blood_group → nearer x d).
Proof.
  unfold matched.
  set (sorted := merge_sort nearer (candidates demoDonors blood_group)).
  assert (StronglySorted nearer sorted) as Hsorted.
  { apply StronglySorted_merge_sort.
    - intros a b c. unfold nearer. lia.
    - intros a b. unfold nearer. lia. }
  assert (∀ d, d ∈ sorted ↔ compatible (blood d) blood_group = true ∧ d ∈ demoDonors)
    as Hmem.
  { intros d. unfold sorted, candidates.
    rewrite merge_sort_Permutation, list_elem_of_filter. tauto. }
  rewrite <- (take_drop 2 sorted) in Hsorted.
  split; [|split; [|split]].
  - rewrite length_take. lia.
  - apply Forall_forall. intros d Hd.
    assert (d ∈ sorted) as Hin
      by (eapply elem_of_sublist; [exact Hd|apply sublist_take]).
    apply Hmem in Hin. tauto.
  - by apply StronglySorted_app_1_l in Hsorted.
  - intros d x Hd Hc Hout Hx.
    assert (d ∈ take 2 sorted ++ drop 2 sorted) as Hin
      by (rewrite take_drop; by apply Hmem).
    apply elem_of_app in Hin as [Hin|Hin]; [done|].
    by apply (StronglySorted_app_1_elem_of nearer _ _ x d Hsorted).
Qed.

End CompatibilityOrder.

(** ** The hospital's donor list and a reload *)

Section DonorProfilesFacts.
Import Supabase DonorProfiles.

(** X23. After the hospital ignores a donor from a freshly loaded list, the
    list shown is exactly what a reload would show: the donor is gone from
    it, in the store the donor is unavailable, and every other profile is as
    it was.  When the store does not carry out the update, the list and the
    store stay as they were and an error is shown. *)
Theorem handleIgnoreDonor_agrees_with_reload (reply : Reply) (donorId : string)
    (d : Db) :
  donors (handleIgnoreDonor Done donorId d (available_profiles d))
    = available_profiles (db (handleIgnoreDonor Done donorId d (available_profiles d))) ∧
  Forall (λ donor, p_id donor ≠ donorId)
    (donors (handleIgnoreDonor Done donorId d (available_profiles d))) ∧
  Forall2 (λ p p', p_id p' = p_id p ∧
                   if decide (p_id p = donorId) then is_available p' = false
                   else p' = p)
    (profiles d) (profiles (db (handleIgnoreDonor Done donorId d (available_profiles d)))) ∧
  (reply ≠ Done →
   handleIgnoreDonor reply donorId d (available_profiles d)
     = mkOutcome d (available_profiles d) ignore_failed).
Proof.
  split; [|split; [|split]].
  - simpl. unfold available_profiles. simpl. rewrite list_filter_filter.
    induction (profiles d) as [|p l IH]; [done|].
    unfold update_eq in *. rewrite fmap_cons, !filter_cons, <- IH.
    destruct (decide (p_id p = donorId)) as [E|E]; simpl.
    + rewrite decide_False by tauto. done.
    + destruct (decide (is_available p = true)).
      * by rewrite decide_True.
      * rewrite decide_False by tauto. done.
  - simpl. apply Forall_forall. intros p Hp.
    by apply list_elem_of_filter in Hp as [? _].
  - simpl. apply Forall2_fmap_self. intros p. by case_decide.
  - intros Hr. by destruct reply.
Qed.

End DonorProfilesFacts.

(** ** An accept followed by a scheduling *)

Section AcceptThenSchedule.
Import Supabase.
Local Open Scope Z_scope.

(** X24. The donor's accept and the hospital's scheduling each store an
    appointment of their own: after an accept that ran to its end with its
    appointment stored, a successful scheduling for the same request leaves
    two appointments for it in the store, the donor's with status "scheduled"
    and the hospital's with status "pending", and the request is Scheduled
    and still names the accepting donor. *)
Theorem accept_then_schedule_two_appointments
    (accepting : DonorRequestCard.Env) (env : AppointmentForm.Env)
    (request : Request) (donor : AppointmentForm.Donor)
    (formData : AppointmentForm.AppointmentData) (d : Db) (donor1 : string) :
  DonorRequestCard.donor_of accepting = Some donor1 →
  DonorRequestCard.carried_out accepting = true →
  DonorRequestCard.appointment_inserted accepting = true →
  id request ≠ "" →
  AppointmentForm.scheduled
    (AppointmentForm.handleSubmit env donor (Some (id request)) formData
       (DonorRequestCard.db (DonorRequestCard.handleAccept accepting request d))) = true →
  (∃ a1 a2,
     appointments
       (AppointmentForm.db
          (AppointmentForm.handleSubmit env donor (Some (id request)) formData
             (DonorRequestCard.db (DonorRequestCard.handleAccept accepting request d))))
       = appointments d ++ [a1; a2] ∧
     a_request_id a1 = Some (id request) ∧ a_status a1 = "scheduled" ∧
     a_donor_id a1 = donor1 ∧
     a_request_id a2 = Some (id request) ∧ a_status a2 = "pending" ∧
     a_donor_id a2 = AppointmentForm.d_id donor) ∧
  Forall (λ r, id r = id request → status r = "Scheduled" ∧ donor_id r = Some donor1)
    (requests
       (AppointmentForm.db
          (AppointmentForm.handleSubmit env donor (Some (id request)) formData
             (DonorRequestCard.db (DonorRequestCard.handleAccept accepting request d))))).
Proof.
  intros Hd1 Hc Hins Hrid Hs.
  destruct (handleSubmit_scheduled_inv _ _ _ _ _ Hs)
    as (hospital & day & minutes & Hu & Hd & Ht & Hcon & Hp & Ha & Hr).
  assert (AppointmentForm.truthy (Some (id request)) = Some (id request)) as Htr
    by (simpl; by rewrite decide_False).
  rewrite Htr in Hr. specialize (Hr (mk_is_Some _ _ eq_refl)).
  set (d1 := DonorRequestCard.db (DonorRequestCard.handleAccept accepting request d)) in *.
  assert (appointments d1
          = appointments d ++ [DonorRequestCard.accept_appointment accepting request donor1]
          ∧ requests d1
            = update_eq id (id request)
                (set_resolution donor1 "accepted" (DonorRequestCard.now_update accepting))
                (requests d)) as [Happ Hreq].
  { unfold d1, DonorRequestCard.handleAccept, DonorRequestCard.carried_out,
      DonorRequestCard.appointment_inserted in *.
    rewrite Hd1 in *.
    destruct (DonorRequestCard.reply_update accepting); try discriminate.
    destruct (DonorRequestCard.reply_appointment accepting); try discriminate.
    destruct (DonorRequestCard.reply_notification accepting); try discriminate; done. }
  assert (appointments
            (AppointmentForm.db
               (AppointmentForm.handleSubmit env donor (Some (id request)) formData d1))
          = appointments d1
              ++ [AppointmentForm.new_appointment env hospital donor
                    (Some (id request)) formData day minutes]
          ∧ requests
              (AppointmentForm.db
                 (AppointmentForm.handleSubmit env donor (Some (id request)) formData d1))
            = update_eq id (id request) (set_status "Scheduled") (requests d1))
    as [Happ2 Hreq2].
  { unfold AppointmentForm.handleSubmit, AppointmentForm.sendNotificationToDonor.
    rewrite Hu, Hd, Ht, Hp, Ha. simpl AppointmentForm.truthy.
    rewrite !(decide_False (P := AppointmentForm.hospitalContact formData = "")) by done.
    rewrite !(decide_False (P := id request = "")) by done.
    rewrite Hr. destruct (AppointmentForm.reply_notification env); done. }
  split.
  - eexists _, _. split.
    + rewrite Happ2, Happ, <- app_assoc. reflexivity.
    + simpl. rewrite decide_False by done. repeat split.
  - rewrite Hreq2, Hreq. unfold update_eq. rewrite <- list_fmap_compose.
    apply Forall_fmap, Forall_forall. intros r _. simpl.
    destruct (decide (id r = id request)) as [E|E]; simpl.
    + rewrite decide_True by done. done.
    + rewrite decide_False by done. intros ?. done.
Qed.

End AcceptThenSchedule.

(** ** The further properties at the scenarios *)

Section FurtherScenarios.
Import Supabase Scenario.
Local Open Scope Z_scope.

Example notes_loaded_ids :
  NotificationSystem.n_id <$> NotificationSystem.shown notes_loaded = ["n3"; "n4"; "n1"] ∧
  NotificationSystem.unreadCount (NotificationSystem.shown notes_loaded) = 2%nat.
Proof. vm_compute. done. Qed.

Lemma markAllAsRead_clears_badge_witness :
  Done ≠ Thrown ∧
  NotificationSystem.unreadCount
    (NotificationSystem.shown
       (NotificationSystem.markAllAsRead Done (Some "u1") notes_loaded).1) = 0%nat.
Proof.
  split; [discriminate|].
  apply (markAllAsRead_clears_badge Done (Some "u1") notes_loaded). discriminate.
Defined.

Lemma deleteNotification_removes_witness :
  Done ≠ Thrown ∧
  (∀ n, n ∈ NotificationSystem.shown
              (NotificationSystem.deleteNotification Done "n4" notes_loaded).1 ↔
        n ∈ NotificationSystem.shown notes_loaded ∧ NotificationSystem.n_id n ≠ "n4").
Proof.
  split; [discriminate|].
  apply (deleteNotification_removes Done "n4" notes_loaded). discriminate.
Defined.

Lemma markAsRead_lowers_badge_witness :
  Done ≠ Thrown ∧
  NoDup (NotificationSystem.n_id <$> NotificationSystem.shown notes_loaded) ∧
  note "n4" "u1" false 200 ∈ NotificationSystem.shown notes_loaded ∧
  NotificationSystem.is_read (note "n4" "u1" false 200) = false ∧
  (NotificationSystem.unreadCount
     (NotificationSystem.shown
        (NotificationSystem.markAsRead Done
           (NotificationSystem.n_id (note "n4" "u1" false 200)) notes_loaded).1) + 1
   = NotificationSystem.unreadCount (NotificationSystem.shown notes_loaded))%nat.
Proof.
  assert (NoDup (NotificationSystem.n_id <$> NotificationSystem.shown notes_loaded))
    as Hnd by compute_done.
  assert (note "n4" "u1" false 200 ∈ NotificationSystem.shown notes_loaded)
    as Hin by (vm_compute; apply list_elem_of_further, list_elem_of_here).
  split; [discriminate|]. split; [exact Hnd|]. split; [exact Hin|].
  split; [reflexivity|].
  apply (markAsRead_lowers_badge Done notes_loaded (note "n4" "u1" false 200));
    [discriminate|exact Hnd|exact Hin|reflexivity].
Defined.

Lemma stock_nonnegative : HospitalDashboard.nonnegative stock.
Proof. unfold HospitalDashboard.nonnegative. simpl. repeat constructor; simpl; lia. Qed.

Lemma quickUpdates_keep_inventory_sound_witness :
  HospitalDashboard.nonnegative stock ∧
  HospitalDashboard.nonnegative
    (HospitalDashboard.quickUpdates
       [("O+", HospitalDashboard.Minus); ("A+", HospitalDashboard.Plus)] stock).
Proof.
  split; [exact stock_nonnegative|].
  apply (quickUpdates_keep_inventory_sound
           [("O+", HospitalDashboard.Minus); ("A+", HospitalDashboard.Plus)] stock).
  exact stock_nonnegative.
Defined.

Lemma convertMlToUnits_round_trip_witness :
  RequestsList.exactMl (RequestForm.quantity_ml 2) ∧
  RequestsList.exactMl 1000 ∧
  RequestsList.convertMlToUnits (RequestForm.quantity_ml 2) = 2 ∧
  -225 ≤ 1000 - 450 * RequestsList.convertMlToUnits 1000 < 225 ∧
  (∀ typed, 2 = RequestForm.onUnitsRequiredChange typed →
            RequestsList.convertMlToUnits (RequestForm.quantity_ml 2) ≠ 0).
Proof.
  assert (RequestsList.exactMl (RequestForm.quantity_ml 2)) as Hstored
    by (vm_compute; split; discriminate).
  assert (RequestsList.exactMl 1000) as Hml
    by (vm_compute; split; discriminate).
  split; [exact Hstored|]. split; [exact Hml|].
  apply (convertMlToUnits_round_trip 2 1000 Hstored Hml).
Defined.

(** 1000 ml are shown as 2 units, 1125 ml as 3. *)
Example convertMlToUnits_1000 :
  RequestsList.convertMlToUnits 1000 = 2 ∧ RequestsList.convertMlToUnits 1125 = 3.
Proof. split; reflexivity. Qed.

Lemma stock_safe : HospitalDashboard.safe stock.
Proof. unfold HospitalDashboard.safe. vm_compute. discriminate. Qed.

Lemma quick_update_moves_total_witness :
  HospitalDashboard.nonnegative stock ∧
  HospitalDashboard.safe stock ∧
  HospitalDashboard.getTotalUnits
    (HospitalDashboard.handleQuickUpdate "O+"
       (HospitalDashboard.change_of HospitalDashboard.Minus) stock).1
    = HospitalDashboard.getTotalUnits stock
      - Z.of_nat (length (filter (λ blood, 0 < HospitalDashboard.units blood)
                            (HospitalDashboard.entries_of "O+" stock))).
Proof.
  split; [exact stock_nonnegative|]. split; [exact stock_safe|].
  apply (quick_update_moves_total "O+" stock);
    [exact stock_nonnegative | exact stock_safe].
Defined.

Example quick_update_totals :
  HospitalDashboard.getTotalUnits stock = 10 ∧
  HospitalDashboard.getTotalUnits
    (HospitalDashboard.handleQuickUpdate "O+" (-1) stock).1 = 10 ∧
  HospitalDashboard.getTotalUnits
    (HospitalDashboard.handleQuickUpdate "A+" 1 stock).1 = 11.
Proof. repeat split. Qed.

Lemma plus_then_minus_restores_witness :
  HospitalDashboard.nonnegative stock ∧
  HospitalDashboard.safe stock ∧
  HospitalDashboard.bloodInventory
    (HospitalDashboard.handleQuickUpdate "O+"
       (HospitalDashboard.change_of HospitalDashboard.Minus)
       (HospitalDashboard.handleQuickUpdate "O+"
          (HospitalDashboard.change_of HospitalDashboard.Plus) stock).1).1
    = HospitalDashboard.bloodInventory stock.
Proof.
  split; [exact stock_nonnegative|]. split; [exact stock_safe|].
  apply (plus_then_minus_restores "O+" stock);
    [exact stock_nonnegative | exact stock_safe].
Defined.

(** Minus and then plus does not give the inventory back when the counter is
    at 0. *)
Example minus_then_plus_at_zero :
  HospitalDashboard.bloodInventory
    (HospitalDashboard.handleQuickUpdate "O+" 1
       (HospitalDashboard.handleQuickUpdate "O+" (-1) stock).1).1
    ≠ HospitalDashboard.bloodInventory stock.
Proof. vm_compute. intros [= ]. Qed.

Lemma handleEditSave_nonnegative_iff_witness :
  HospitalDashboard.nonnegative stock ∧
  (HospitalDashboard.nonnegative
     (HospitalDashboard.handleEditSave "A+"
        (HospitalDashboard.onTempValueChange (Some (-5))
           (HospitalDashboard.handleEditStart "A+" 7 stock))).1 ↔
   0 ≤ HospitalDashboard.tempValue
         (HospitalDashboard.onTempValueChange (Some (-5))
            (HospitalDashboard.handleEditStart "A+" 7 stock)) ∨
   HospitalDashboard.entries_of "A+"
     (HospitalDashboard.onTempValueChange (Some (-5))
        (HospitalDashboard.handleEditStart "A+" 7 stock)) = []).
Proof.
  split; [exact stock_nonnegative|].
  apply (handleEditSave_nonnegative_iff "A+"
           (HospitalDashboard.onTempValueChange (Some (-5))
              (HospitalDashboard.handleEditStart "A+" 7 stock))).
  exact stock_nonnegative.
Defined.

Lemma edit_without_change_restores_witness :
  NoDup (HospitalDashboard.type <$> HospitalDashboard.bloodInventory stock) ∧
  HospitalDashboard.mkBloodType "A+" 7 ∈ HospitalDashboard.bloodInventory stock ∧
  HospitalDashboard.bloodInventory
    (HospitalDashboard.handleEditSave
       (HospitalDashboard.type (HospitalDashboard.mkBloodType "A+" 7))
       (HospitalDashboard.handleEditStart
          (HospitalDashboard.type (HospitalDashboard.mkBloodType "A+" 7))
          (HospitalDashboard.units (HospitalDashboard.mkBloodType "A+" 7)) stock)).1
    = HospitalDashboard.bloodInventory stock.
Proof.
  assert (NoDup (HospitalDashboard.type <$> HospitalDashboard.bloodInventory stock))
    as Hnd by compute_done.
  assert (HospitalDashboard.mkBloodType "A+" 7 ∈ HospitalDashboard.bloodInventory stock)
    as Hin by (vm_compute; apply list_elem_of_further, list_elem_of_here).
  split; [exact Hnd|]. split; [exact Hin|].
  apply (edit_without_change_restores (HospitalDashboard.mkBloodType "A+" 7) stock Hnd Hin).
Defined.

Example h1_list_rows :
  (λ r, (id r, status r)) <$> h1_list = [("r3", "Accepted"); ("r1", "Pending")].
Proof. vm_compute. reflexivity. Qed.

Lemma fetchRequests_loads_with_status_witness :
  "h1" ≠ "" ∧
  Forall (λ r, status r ≠ "")
    (RequestsList.fetchRequests (Some "h1") Done stored_requests []).1.
Proof.
  split; [discriminate|].
  apply (fetchRequests_loads_with_status "h1" stored_requests []). discriminate.
Defined.

Lemma h1_list_r3_resolved :
  Forall (λ r, id r = "r3" → status r ≠ "Pending") h1_list.
Proof. vm_compute. repeat constructor; intros; discriminate. Qed.

Lemma presses_leave_resolved_rows_witness :
  Forall (λ r, id r = "r3" → status r ≠ "Pending") h1_list ∧
  filter (λ r, id r = "r3")
    (RequestsList.presses
       [(Done, 0%nat, RequestsList.Ignored); (Done, 1%nat, RequestsList.Accepted);
        (Done, 0%nat, RequestsList.Accepted)]
       (store h1_list) h1_list).2
    = filter (λ r, id r = "r3") h1_list.
Proof.
  split; [exact h1_list_r3_resolved|].
  apply (presses_leave_resolved_rows
           [(Done, 0%nat, RequestsList.Ignored); (Done, 1%nat, RequestsList.Accepted);
            (Done, 0%nat, RequestsList.Accepted)]
           (store h1_list) h1_list "r3").
  exact h1_list_r3_resolved.
Defined.

(** The same run does change r1, which the list shows as Pending. *)
Example presses_change_pending_row :
  (λ r, (id r, status r)) <$>
    (RequestsList.presses
       [(Done, 0%nat, RequestsList.Ignored); (Done, 1%nat, RequestsList.Accepted);
        (Done, 0%nat, RequestsList.Accepted)]
       (store h1_list) h1_list).2
    = [("r3", "Accepted"); ("r1", "Accepted")].
Proof. vm_compute. reflexivity. Qed.

Lemma card_handlers_fail_closed_witness :
  (DonorRequestCard.donor_of
     (DonorRequestCard.mkEnv (Some "d1") 5000 5005 (Refused "permission denied") Done Done)
     = None ∨
   DonorRequestCard.reply_update
     (DonorRequestCard.mkEnv (Some "d1") 5000 5005 (Refused "permission denied") Done Done)
     ≠ Done) ∧
  DonorRequestCard.db
    (DonorRequestCard.handleAccept
       (DonorRequestCard.mkEnv (Some "d1") 5000 5005 (Refused "permission denied") Done Done)
       r1_pending (store [r1_pending]))
    = store [r1_pending].
Proof.
  assert (DonorRequestCard.donor_of
            (DonorRequestCard.mkEnv (Some "d1") 5000 5005
               (Refused "permission denied") Done Done) = None ∨
          DonorRequestCard.reply_update
            (DonorRequestCard.mkEnv (Some "d1") 5000 5005
               (Refused "permission denied") Done Done) ≠ Done) as Hfail
    by (right; discriminate).
  split; [exact Hfail|].
  apply (card_handlers_fail_closed
           (DonorRequestCard.mkEnv (Some "d1") 5000 5005
              (Refused "permission denied") Done Done)
           r1_pending (store [r1_pending]) Hfail).
Defined.

Lemma ignore_after_accept_keeps_appointment_witness :
  DonorRequestCard.donor_of (donor_env "d1" 5000) = Some "d1" ∧
  DonorRequestCard.carried_out (donor_env "d1" 5000) = true ∧
  DonorRequestCard.appointment_inserted (donor_env "d1" 5000) = true ∧
  DonorRequestCard.donor_of (donor_env "d2" 6000) = Some "d2" ∧
  DonorRequestCard.reply_update (donor_env "d2" 6000) = Done ∧
  DonorRequestCard.accept_appointment (donor_env "d1" 5000) r1_pending "d1"
    ∈ appointments
        (DonorRequestCard.db
           (DonorRequestCard.handleIgnore (donor_env "d2" 6000) r1_pending
              (DonorRequestCard.db
                 (DonorRequestCard.handleAccept (donor_env "d1" 5000) r1_pending
                    (store [r1_pending]))))).
Proof.
  repeat (split; [reflexivity|]).
  apply (ignore_after_accept_keeps_appointment (donor_env "d1" 5000)
           (donor_env "d2" 6000) r1_pending (store [r1_pending]) "d1" "d2");
    reflexivity.
Defined.

Lemma acceptAll_adds_an_appointment_each_witness :
  forallb DonorRequestCard.carried_out
    [donor_env "d1" 5000; donor_env_refused "d1" 5500; donor_env "d1" 6000] = true ∧
  length (appointments
            (DonorRequestCard.acceptAll
               [donor_env "d1" 5000; donor_env_refused "d1" 5500; donor_env "d1" 6000]
               r1_pending (store [r1_pending])).1)
    = (length (appointments (store [r1_pending]))
       + length (filter (λ e, DonorRequestCard.appointment_inserted e = true)
                   [donor_env "d1" 5000; donor_env_refused "d1" 5500;
                    donor_env "d1" 6000]))%nat.
Proof.
  split; [reflexivity|].
  apply (acceptAll_adds_an_appointment_each
           [donor_env "d1" 5000; donor_env_refused "d1" 5500; donor_env "d1" 6000]
           r1_pending (store [r1_pending])).
  reflexivity.
Defined.

(** Three accepts by the same donor, one of them with its insert refused,
    leave two appointments for r1. *)
Example acceptAll_duplicates :
  a_donor_id <$>
    appointments
      (DonorRequestCard.acceptAll
         [donor_env "d1" 5000; donor_env_refused "d1" 5500; donor_env "d1" 6000]
         r1_pending (store [r1_pending])).1
    = ["d1"; "d1"].
Proof. reflexivity. Qed.

Lemma handleSubmit_failure_keeps_appointment_witness :
  AppointmentForm.truthy (AppointmentForm.user form_env_refused) = Some "h1" ∧
  AppointmentForm.date (form_for 20005 600) = Some 20005 ∧
  AppointmentForm.time (form_for 20005 600) = Some 600 ∧
  AppointmentForm.hospitalContact (form_for 20005 600) ≠ "" ∧
  AppointmentForm.dateTimeParses 20005 = true ∧
  "r1" ≠ "" ∧
  AppointmentForm.reply_appointment form_env_refused = Done ∧
  AppointmentForm.reply_request form_env_refused ≠ Done ∧
  AppointmentForm.toast
    (AppointmentForm.handleSubmit form_env_refused d1 (Some "r1") (form_for 20005 600)
       (store [r1_with "Accepted" (Some "d1") None]))
    = AppointmentForm.scheduling_failed.
Proof.
  split; [reflexivity|]. split; [reflexivity|]. split; [reflexivity|].
  split; [discriminate|]. split; [reflexivity|]. split; [discriminate|].
  split; [reflexivity|]. split; [discriminate|].
  apply (handleSubmit_failure_keeps_appointment form_env_refused d1 "r1"
           (form_for 20005 600) (store [r1_with "Accepted" (Some "d1") None])
           "h1" 20005 600);
    first [reflexivity | discriminate].
Defined.

Example failed_scheduling_leaves_appointment :
  length (appointments
            (AppointmentForm.db
               (AppointmentForm.handleSubmit form_env_refused d1 (Some "r1")
                  (form_for 20005 600)
                  (store [r1_with "Accepted" (Some "d1") None])))) = 1%nat ∧
  status <$> requests
    (AppointmentForm.db
       (AppointmentForm.handleSubmit form_env_refused d1 (Some "r1")
          (form_for 20005 600)
          (store [r1_with "Accepted" (Some "d1") None]))) = ["Accepted"].
Proof. split; reflexivity. Qed.

Lemma date_input_and_local_day_witness :
  - AppointmentForm.msPerDay < AppointmentForm.utc_offset (form_env (-28800000))
    < AppointmentForm.msPerDay ∧
  - AppointmentForm.msPerDay < -25200000 < AppointmentForm.msPerDay ∧
  AppointmentForm.getMinDate (20000 * AppointmentForm.msPerDay + 3600000) - 1
    ≤ AppointmentForm.localDay (form_env (-28800000))
        (20000 * AppointmentForm.msPerDay + 3600000)
    ≤ AppointmentForm.getMinDate (20000 * AppointmentForm.msPerDay + 3600000) + 1.
Proof.
  assert (- AppointmentForm.msPerDay
          < AppointmentForm.utc_offset (form_env (-28800000))
          < AppointmentForm.msPerDay) as Hoff by (vm_compute; split; reflexivity).
  assert (- AppointmentForm.msPerDay < -25200000 < AppointmentForm.msPerDay)
    as Hthen by (vm_compute; split; reflexivity).
  split; [exact Hoff|]. split; [exact Hthen|].
  apply (date_input_and_local_day (form_env (-28800000)) (-25200000)
           (20000 * AppointmentForm.msPerDay + 3600000) Hoff Hthen).
Defined.

(** At 01:00 UTC of day 20000, eight hours west of UTC it is 17:00 of day
    19999: the user's today is not in the range of the date input. *)
Example today_out_of_range_west_of_utc :
  AppointmentForm.localDay (form_env (-28800000))
    (20000 * AppointmentForm.msPerDay + 3600000) = 19999 ∧
  AppointmentForm.dateInputInRange (form_env (-28800000)) (-28800000)
    (20000 * AppointmentForm.msPerDay + 3600000) 19999
    = false.
Proof. split; reflexivity. Qed.

Lemma accept_then_schedule_two_appointments_witness :
  DonorRequestCard.donor_of (donor_env "d1" 5000) = Some "d1" ∧
  DonorRequestCard.carried_out (donor_env "d1" 5000) = true ∧
  DonorRequestCard.appointment_inserted (donor_env "d1" 5000) = true ∧
  id r1_pending ≠ "" ∧
  AppointmentForm.scheduled
    (AppointmentForm.handleSubmit (form_env 0) d1 (Some (id r1_pending))
       (form_for 20005 600)
       (DonorRequestCard.db
          (DonorRequestCard.handleAccept (donor_env "d1" 5000) r1_pending
             (store [r1_pending])))) = true ∧
  Forall (λ r, id r = id r1_pending →
               status r = "Scheduled" ∧ donor_id r = Some "d1")
    (requests
       (AppointmentForm.db
          (AppointmentForm.handleSubmit (form_env 0) d1 (Some (id r1_pending))
             (form_for 20005 600)
             (DonorRequestCard.db
                (DonorRequestCard.handleAccept (donor_env "d1" 5000) r1_pending
                   (store [r1_pending])))))).
Proof.
  split; [reflexivity|]. split; [reflexivity|]. split; [reflexivity|].
  split; [discriminate|]. split; [reflexivity|].
  apply (accept_then_schedule_two_appointments (donor_env "d1" 5000) (form_env 0)
           r1_pending d1 (form_for 20005 600) (store [r1_pending]) "d1");
    first [reflexivity | discriminate].
Defined.

Example accept_then_schedule_rows :
  (λ a, (a_donor_id a, a_status a)) <$>
    appointments
      (AppointmentForm.db
         (AppointmentForm.handleSubmit (form_env 0) d1 (Some "r1") (form_for 20005 600)
            (DonorRequestCard.db
               (DonorRequestCard.handleAccept (donor_env "d1" 5000) r1_pending
                  (store [r1_pending])))))
    = [("d1", "scheduled"); ("d1", "pending")].
Proof. reflexivity. Qed.

End FurtherScenarios.
